(** * Guia de Compensação MG: the REST backend and the page controller

    A shallow embedding of [backend/server.js] (the libsql server, and the
    sqlite3 server that is the second text of the file) and of the browser
    script that drives the single page.

    Conventions of the embedding.
    - A string is a [string]: the bytes of its UTF-8 form, as it travels in
      requests and answers and as the store keeps it.  Texts are well-formed
      UTF-8 without NUL.
    - The string methods of JavaScript that the code calls ([toLowerCase],
      [toUpperCase], [trim]) follow Unicode.  They are taken from a
      [Js.Engine]; what the embedding knows of them is their value on ASCII
      text.  The functions of SQLite ([LOWER], [LIKE]) fold ASCII letters
      only and are defined here.
    - A text column, and a text property of a JSON row, is a [text]:
      [None] is SQL NULL / JavaScript null, [Some s] a string.
    - Primary keys are integers ([Z]).  The [:id] segment of a route is bound
      as the parameter of [WHERE id = ?]; the embedding carries the integer
      the store compares the key column with.
    - A parameter of the query string is absent, one string, or what the
      parser of Express makes of a repeated or bracketed name: an array or
      an object ([Query.Value]).
    - Every handler awaits one store call (or one upstream call) and answers.
      A handler is a function from the store to its reply and the store
      that the call leaves behind. *)

From Stdlib Require Import ZArith List String Ascii Bool Lia.
From Stdlib Require Import Sorting.Sorted Sorting.Permutation.

Import ListNotations.

Local Open Scope string_scope.
Local Open Scope Z_scope.

(** ** Strings as JavaScript and SQLite see them *)

Module Js.

Definition is_upper (c : ascii) : bool :=
  let n := nat_of_ascii c in (Nat.leb 65 n && Nat.leb n 90)%bool.

Definition is_lower (c : ascii) : bool :=
  let n := nat_of_ascii c in (Nat.leb 97 n && Nat.leb n 122)%bool.

Definition lower_char (c : ascii) : ascii :=
  if is_upper c then ascii_of_nat (nat_of_ascii c + 32) else c.

Definition upper_char (c : ascii) : ascii :=
  if is_lower c then ascii_of_nat (nat_of_ascii c - 32) else c.

(** The letters A-Z to lower case, every other byte as it is. *)
Fixpoint ascii_lower (s : string) : string :=
  match s with
  | EmptyString => EmptyString
  | String c s' => String (lower_char c) (ascii_lower s')
  end.

(** The letters a-z to upper case, every other byte as it is. *)
Fixpoint ascii_upper (s : string) : string :=
  match s with
  | EmptyString => EmptyString
  | String c s' => String (upper_char c) (ascii_upper s')
  end.

(** The white space of the ASCII range: TAB, LF, VT, FF, CR and SPACE. *)
Definition is_space (c : ascii) : bool :=
  let n := nat_of_ascii c in
  ((Nat.leb 9 n && Nat.leb n 13) || Nat.eqb n 32)%bool.

Fixpoint ascii_trimStart (s : string) : string :=
  match s with
  | EmptyString => EmptyString
  | String c s' => if is_space c then ascii_trimStart s' else s
  end.

Fixpoint ascii_trimEnd (s : string) : string :=
  match s with
  | EmptyString => EmptyString
  | String c s' =>
      match ascii_trimEnd s' with
      | EmptyString => if is_space c then EmptyString else String c EmptyString
      | t => String c t
      end
  end.

(** The ASCII white space removed at both ends. *)
Definition ascii_trim (s : string) : string :=
  ascii_trimEnd (ascii_trimStart s).

(** Every byte is below 128. *)
Fixpoint is_ascii (s : string) : bool :=
  match s with
  | EmptyString => true
  | String c s' => (Nat.ltb (nat_of_ascii c) 128 && is_ascii s')%bool
  end.

(** [s.toLowerCase()], [s.toUpperCase()] and [s.trim()].  The methods follow
    Unicode (they fold letters and strip white space outside the ASCII
    range too); on ASCII text they are the three functions above. *)
Record Engine := engine {
  toLowerCase : string -> string;
  toUpperCase : string -> string;
  trim : string -> string;
  toLowerCase_ascii :
    forall s, is_ascii s = true -> toLowerCase s = ascii_lower s;
  toUpperCase_ascii :
    forall s, is_ascii s = true -> toUpperCase s = ascii_upper s;
  trim_ascii :
    forall s, is_ascii s = true -> trim s = ascii_trim s
}.

(** An engine for ASCII text: it is the three functions above on every
    string. *)
Definition ascii_engine : Engine :=
  engine ascii_lower ascii_upper ascii_trim
         (fun _ _ => eq_refl) (fun _ _ => eq_refl) (fun _ _ => eq_refl).

(** [s.replace(/\n/g, by)] *)
Fixpoint replace_newlines (by_ : string) (s : string) : string :=
  match s with
  | EmptyString => EmptyString
  | String c s' =>
      if Ascii.eqb c (ascii_of_nat 10)
      then by_ ++ replace_newlines by_ s'
      else String c (replace_newlines by_ s')
  end.

(** Truthiness of a value that is either absent or a string: [undefined],
    [null] and the empty string are falsy. *)
Definition truthy (v : option string) : bool :=
  match v with
  | None => false
  | Some EmptyString => false
  | Some _ => true
  end.

(** A template literal prints [null] for a null value. *)
Definition interpolate (v : option string) : string :=
  match v with
  | None => "null"
  | Some s => s
  end.

End Js.

(** ** Parameters of the query string *)

Module Query.

(** What [req.query.name] can hold: the text of [?name=text], an array for
    a repeated name ([?name=a&name=b]) and an object for a bracketed one
    ([?name[k]=v]), nested as the parser nests them. *)
#[warnings="-register-all"] Inductive Value :=
| Str (s : string)
| Arr (l : list Value)
| Obj (l : list (string * Value)).

(** [None] when the name does not occur in the query string. *)
Definition Param := option Value.

(** Truthiness: [undefined] and the empty string are falsy; arrays and
    objects are truthy. *)
Definition truthy (v : Param) : bool :=
  match v with
  | None => false
  | Some (Str EmptyString) => false
  | Some _ => true
  end.

(** The text a template literal prints for the value: a string as it is,
    an array as its elements joined by commas, an object as
    [[object Object]]. *)
Fixpoint toString (v : Value) : string :=
  match v with
  | Str s => s
  | Arr l => String.concat "," (map toString l)
  | Obj _ => "[object Object]"
  end.

End Query.

(** ** The relational store *)

(** A text column. *)
Definition text := option string.

Module Norma.
Record t := make { id : Z; nome : text; link : text; preambulo : text }.
End Norma.

Module Tipo.
Record t := make { id : Z; nome : text }.
End Tipo.

Module Modalidade.

(** The nine editable columns, in the order of the INSERT and UPDATE
    statements. *)
Record fields := make_fields {
  tipo_id : option Z;
  nome : text;
  proporcao : text;
  forma : text;
  especificidades : text;
  vantagens : text;
  desvantagens : text;
  observacao : text;
  documentos : text
}.
Record t := make { id : Z; columns : fields }.
End Modalidade.

Module NormaTipo.
Record t := make { tipo_id : option Z; norma_id : option Z }.
End NormaTipo.

Record Tables := mkTables {
  normas : list Norma.t;
  tipos_compensacao : list Tipo.t;
  modalidades : list Modalidade.t;
  normas_tipos_compensacao : list NormaTipo.t
}.

Module Sql.

(** *** Expressions used by the statements *)

(** [LOWER(X)]: the letters A-Z to lower case, every other byte as it
    is. *)
Definition LOWER (s : string) : string := Js.ascii_lower s.

(** The characters of a text as [LIKE] reads them: a byte from 0xC0 on
    together with the bytes 0x80-0xBF that follow it, and any other byte
    alone. *)
Definition is_lead (c : ascii) : bool := Nat.leb 192 (nat_of_ascii c).

Definition is_continuation (c : ascii) : bool :=
  let n := nat_of_ascii c in (Nat.leb 128 n && Nat.ltb n 192)%bool.

Definition lone_continuation (ch : string) : bool :=
  match ch with
  | String c EmptyString => is_continuation c
  | _ => false
  end.

Fixpoint take_continuations (l : list string) : string * list string :=
  match l with
  | ch :: l' =>
      if lone_continuation ch
      then let (bytes, rest) := take_continuations l' in (ch ++ bytes, rest)
      else (EmptyString, l)
  | [] => (EmptyString, [])
  end.

Fixpoint characters (s : string) : list string :=
  match s with
  | EmptyString => []
  | String c s' =>
      if is_lead c
      then let (bytes, rest) := take_continuations (characters s') in
           String c bytes :: rest
      else String c EmptyString :: characters s'
  end.

(** A character of the pattern that is no wild card against a character of
    the text: the same character, or the same ASCII letter in the other
    case. *)
Definition same_character (p c : string) : bool :=
  match p, c with
  | String a EmptyString, String b EmptyString =>
      Ascii.eqb (Js.lower_char a) (Js.lower_char b)
  | _, _ => String.eqb p c
  end.

Fixpoint like_characters (p s : list string) {struct p} : bool :=
  match p with
  | [] =>
      match s with [] => true | _ :: _ => false end
  | c :: p' =>
      if String.eqb c "%" then
        (fix skip (s : list string) : bool :=
           (like_characters p' s ||
            match s with
            | [] => false
            | _ :: s' => skip s'
            end)%bool) s
      else if String.eqb c "_" then
        match s with
        | [] => false
        | _ :: s' => like_characters p' s'
        end
      else
        match s with
        | [] => false
        | d :: s' => (same_character c d && like_characters p' s')%bool
        end
  end.

(** [X LIKE P] without ESCAPE clause: [%] matches any sequence of
    characters, [_] any one character, every other character matches
    itself up to ASCII case. *)
Definition like (p s : string) : bool :=
  like_characters (characters p) (characters s).

(** [LOWER(col) LIKE ?]: NULL when the column is NULL, and NULL is not
    true. *)
Definition lower_like (col : text) (pattern : string) : bool :=
  match col with
  | None => false
  | Some s => like pattern (LOWER s)
  end.

(** Order of the BINARY collation on a text column: NULL first, then byte
    by byte. *)
Definition text_leb (a b : text) : bool :=
  match a, b with
  | None, _ => true
  | Some _, None => false
  | Some x, Some y => String.leb x y
  end.

Fixpoint insert_by_nome (r : Norma.t) (l : list Norma.t) : list Norma.t :=
  match l with
  | [] => [r]
  | x :: l' =>
      if text_leb (Norma.nome r) (Norma.nome x) then r :: l
      else x :: insert_by_nome r l'
  end.

(** [ORDER BY nome] *)
Definition order_by_nome (l : list Norma.t) : list Norma.t :=
  fold_right insert_by_nome [] l.

(** [WHERE fk = ?] on a nullable integer column. *)
Definition fk_eqb (col : option Z) (arg : Z) : bool :=
  match col with
  | None => false
  | Some k => Z.eqb k arg
  end.

(** *** Statements

    One constructor per SQL text of the servers, carrying the bound
    arguments. *)
Inductive Statement :=
| SelectNormas (pattern : option string)
| SelectTipos
| SelectModalidades
| SelectNormasOfTipo (tipo_id : Z)
| InsertNorma (nome link preambulo : text)
| UpdateNorma (nome link preambulo : text) (id : Z)
| DeleteNorma (id : Z)
| InsertTipo (nome : text)
| UpdateTipo (nome : text) (id : Z)
| DeleteTipo (id : Z)
| InsertNormaTipo (tipo_id norma_id : option Z)
| InsertModalidade (p : Modalidade.fields)
| UpdateModalidade (p : Modalidade.fields) (id : Z)
| DeleteModalidade (id : Z)
| Unparsable (near : string).

Inductive Rows :=
| NoRows
| NormaRows (l : list Norma.t)
| TipoRows (l : list Tipo.t)
| ModalidadeRows (l : list Modalidade.t).

(** What the driver hands back: the rows of a SELECT, the number of rows a
    write changed ([rowsAffected], [this.changes]) and the key of the last
    inserted row ([lastInsertRowid], [this.lastID]). *)
Record ResultSet := mkResult {
  rows : Rows;
  changes : nat;
  lastInsertRowid : Z
}.

Definition selected (r : Rows) : ResultSet := mkResult r 0 0.

Definition written (n : nat) (last : Z) : ResultSet := mkResult NoRows n last.

(** Modelled from the spec: the schema is not part of the sources.  Keys are
    generated by the store and unique: a new row takes the successor of the
    largest key of its table. *)
Definition next_id (ids : list Z) : Z := fold_right Z.max 0 ids + 1.

Definition count {A} (f : A -> bool) (l : list A) : nat :=
  List.length (filter f l).

Definition where_norma (pattern : string) (n : Norma.t) : bool :=
  (lower_like (Norma.nome n) pattern
   || lower_like (Norma.link n) pattern
   || lower_like (Norma.preambulo n) pattern)%bool.

(** [SELECT n.* FROM normas n JOIN normas_tipos_compensacao ntc
     ON n.id = ntc.norma_id WHERE ntc.tipo_id = ?] *)
Definition join_normas (db : Tables) (tipo_id : Z) : list Norma.t :=
  flat_map
    (fun n =>
       flat_map
         (fun ntc =>
            if (fk_eqb (NormaTipo.norma_id ntc) (Norma.id n)
                && fk_eqb (NormaTipo.tipo_id ntc) tipo_id)%bool
            then [n] else [])
         (normas_tipos_compensacao db))
    (normas db).

Definition set_normas (db : Tables) (l : list Norma.t) : Tables :=
  mkTables l (tipos_compensacao db) (modalidades db)
           (normas_tipos_compensacao db).

Definition set_tipos (db : Tables) (l : list Tipo.t) : Tables :=
  mkTables (normas db) l (modalidades db) (normas_tipos_compensacao db).

Definition set_modalidades (db : Tables) (l : list Modalidade.t) : Tables :=
  mkTables (normas db) (tipos_compensacao db) l
           (normas_tipos_compensacao db).

Definition set_normas_tipos (db : Tables) (l : list NormaTipo.t) : Tables :=
  mkTables (normas db) (tipos_compensacao db) (modalidades db) l.

(** The effect of a well-formed statement that the store accepts. *)
Definition run (st : Statement) (db : Tables) : ResultSet * Tables :=
  match st with
  | SelectNormas None =>
      (selected (NormaRows (order_by_nome (normas db))), db)
  | SelectNormas (Some pattern) =>
      (selected
         (NormaRows (order_by_nome (filter (where_norma pattern) (normas db)))),
       db)
  | SelectTipos => (selected (TipoRows (tipos_compensacao db)), db)
  | SelectModalidades => (selected (ModalidadeRows (modalidades db)), db)
  | SelectNormasOfTipo tipo_id =>
      (selected (NormaRows (join_normas db tipo_id)), db)
  | InsertNorma nome link preambulo =>
      let k := next_id (map Norma.id (normas db)) in
      (written 1 k,
       set_normas db (normas db ++ [Norma.make k nome link preambulo]))
  | UpdateNorma nome link preambulo id =>
      let hit := fun n => Z.eqb (Norma.id n) id in
      (written (count hit (normas db)) 0,
       set_normas db
         (map (fun n => if hit n
                        then Norma.make (Norma.id n) nome link preambulo
                        else n)
              (normas db)))
  | DeleteNorma id =>
      let hit := fun n => Z.eqb (Norma.id n) id in
      (written (count hit (normas db)) 0,
       set_normas db (filter (fun n => negb (hit n)) (normas db)))
  | InsertTipo nome =>
      let k := next_id (map Tipo.id (tipos_compensacao db)) in
      (written 1 k,
       set_tipos db (tipos_compensacao db ++ [Tipo.make k nome]))
  | UpdateTipo nome id =>
      let hit := fun t => Z.eqb (Tipo.id t) id in
      (written (count hit (tipos_compensacao db)) 0,
       set_tipos db
         (map (fun t => if hit t then Tipo.make (Tipo.id t) nome else t)
              (tipos_compensacao db)))
  | DeleteTipo id =>
      let hit := fun t => Z.eqb (Tipo.id t) id in
      (written (count hit (tipos_compensacao db)) 0,
       set_tipos db (filter (fun t => negb (hit t)) (tipos_compensacao db)))
  | InsertNormaTipo tipo_id norma_id =>
      (written 1 (Z.of_nat (S (List.length (normas_tipos_compensacao db)))),
       set_normas_tipos db
         (normas_tipos_compensacao db ++ [NormaTipo.make tipo_id norma_id]))
  | InsertModalidade p =>
      let k := next_id (map Modalidade.id (modalidades db)) in
      (written 1 k,
       set_modalidades db (modalidades db ++ [Modalidade.make k p]))
  | UpdateModalidade p id =>
      let hit := fun m => Z.eqb (Modalidade.id m) id in
      (written (count hit (modalidades db)) 0,
       set_modalidades db
         (map (fun m => if hit m then Modalidade.make (Modalidade.id m) p
                        else m)
              (modalidades db)))
  | DeleteModalidade id =>
      let hit := fun m => Z.eqb (Modalidade.id m) id in
      (written (count hit (modalidades db)) 0,
       set_modalidades db (filter (fun m => negb (hit m)) (modalidades db)))
  | Unparsable _ => (written 0 0, db)
  end.

Definition double_quote : string := String (ascii_of_nat 34) EmptyString.

(** The message of the engine for a text it cannot parse. *)
Definition syntax_error (near : string) : string :=
  "SQLITE_ERROR: near " ++ double_quote ++ near ++ double_quote
  ++ ": syntax error".

End Sql.

(** ** JSON texts *)

Module Json.

(** [JSON.parse] accepts the texts of the JSON grammar: one value between
    optional white space.  The recogniser reads the text byte by byte; it
    keeps what it expects next and the arrays and objects that are open. *)
Inductive Container := InArray | InObject.

Inductive Expect :=
| Value | ValueOrClose | KeyOrClose | Key | Colon | After
| InString (key : bool) | Escape (key : bool) | Hex (key : bool) (more : nat)
| Minus | Zero | Int | Dot | Frac | Exp | ExpSign | ExpDigits
| Literal (rest : string).

Definition code_is (c : ascii) (n : nat) : bool := Nat.eqb (nat_of_ascii c) n.

(** TAB, LF, CR and SPACE. *)
Definition is_ws (c : ascii) : bool :=
  (code_is c 9 || code_is c 10 || code_is c 13 || code_is c 32)%bool.

Definition is_digit (c : ascii) : bool :=
  let n := nat_of_ascii c in (Nat.leb 48 n && Nat.leb n 57)%bool.

Definition is_hex (c : ascii) : bool :=
  let n := nat_of_ascii c in
  (is_digit c || (Nat.leb 65 n && Nat.leb n 70)
   || (Nat.leb 97 n && Nat.leb n 102))%bool.

(** The characters that may follow a backslash, [u] apart: the double
    quote, the backslash, the slash, and b f n r t. *)
Definition is_escape (c : ascii) : bool :=
  (code_is c 34 || code_is c 92 || code_is c 47 || code_is c 98
   || code_is c 102 || code_is c 110 || code_is c 114 || code_is c 116)%bool.

Definition is_exponent (c : ascii) : bool :=
  (code_is c 101 || code_is c 69)%bool.

Definition is_sign (c : ascii) : bool :=
  (code_is c 43 || code_is c 45)%bool.

Definition close (what : Container) (open : list Container)
  : option (Expect * list Container) :=
  match open, what with
  | InArray :: rest, InArray => Some (After, rest)
  | InObject :: rest, InObject => Some (After, rest)
  | _, _ => None
  end.

(** After a value: white space, a comma inside an array or an object, or
    the end of the innermost array or object. *)
Definition after_value (c : ascii) (open : list Container)
  : option (Expect * list Container) :=
  if is_ws c then Some (After, open)
  else if code_is c 44 then
    match open with
    | InArray :: _ => Some (Value, open)
    | InObject :: _ => Some (Key, open)
    | [] => None
    end
  else if code_is c 93 then close InArray open
  else if code_is c 125 then close InObject open
  else None.

Definition start_value (c : ascii) (open : list Container)
  : option (Expect * list Container) :=
  if code_is c 123 then Some (KeyOrClose, InObject :: open)
  else if code_is c 91 then Some (ValueOrClose, InArray :: open)
  else if code_is c 34 then Some (InString false, open)
  else if code_is c 45 then Some (Minus, open)
  else if code_is c 48 then Some (Zero, open)
  else if is_digit c then Some (Int, open)
  else if code_is c 116 then Some (Literal "rue", open)
  else if code_is c 102 then Some (Literal "alse", open)
  else if code_is c 110 then Some (Literal "ull", open)
  else None.

Definition step (e : Expect) (open : list Container) (c : ascii)
  : option (Expect * list Container) :=
  match e with
  | Value =>
      if is_ws c then Some (Value, open) else start_value c open
  | ValueOrClose =>
      if is_ws c then Some (ValueOrClose, open)
      else if code_is c 93 then close InArray open
      else start_value c open
  | KeyOrClose =>
      if is_ws c then Some (KeyOrClose, open)
      else if code_is c 34 then Some (InString true, open)
      else if code_is c 125 then close InObject open
      else None
  | Key =>
      if is_ws c then Some (Key, open)
      else if code_is c 34 then Some (InString true, open)
      else None
  | Colon =>
      if is_ws c then Some (Colon, open)
      else if code_is c 58 then Some (Value, open)
      else None
  | After => after_value c open
  | InString key =>
      if code_is c 34 then Some (if key then Colon else After, open)
      else if code_is c 92 then Some (Escape key, open)
      else if Nat.ltb (nat_of_ascii c) 32 then None
      else Some (InString key, open)
  | Escape key =>
      if is_escape c then Some (InString key, open)
      else if code_is c 117 then Some (Hex key 4, open)
      else None
  | Hex key more =>
      if is_hex c then
        match more with
        | O => None
        | S O => Some (InString key, open)
        | S more' => Some (Hex key more', open)
        end
      else None
  | Minus =>
      if code_is c 48 then Some (Zero, open)
      else if is_digit c then Some (Int, open)
      else None
  | Zero =>
      if code_is c 46 then Some (Dot, open)
      else if is_exponent c then Some (Exp, open)
      else after_value c open
  | Int =>
      if is_digit c then Some (Int, open)
      else if code_is c 46 then Some (Dot, open)
      else if is_exponent c then Some (Exp, open)
      else after_value c open
  | Dot =>
      if is_digit c then Some (Frac, open) else None
  | Frac =>
      if is_digit c then Some (Frac, open)
      else if is_exponent c then Some (Exp, open)
      else after_value c open
  | Exp =>
      if is_sign c then Some (ExpSign, open)
      else if is_digit c then Some (ExpDigits, open)
      else None
  | ExpSign =>
      if is_digit c then Some (ExpDigits, open) else None
  | ExpDigits =>
      if is_digit c then Some (ExpDigits, open) else after_value c open
  | Literal rest =>
      match rest with
      | String x rest' =>
          if Ascii.eqb c x
          then Some (match rest' with
                     | EmptyString => After
                     | _ => Literal rest'
                     end, open)
          else None
      | EmptyString => None
      end
  end.

(** At the end of the text a value must be complete and nothing open. *)
Definition complete (e : Expect) (open : list Container) : bool :=
  match open, e with
  | [], (After | Zero | Int | Frac | ExpDigits) => true
  | _, _ => false
  end.

Fixpoint run (e : Expect) (open : list Container) (s : string) : bool :=
  match s with
  | EmptyString => complete e open
  | String c s' =>
      match step e open c with
      | Some (e', open') => run e' open' s'
      | None => false
      end
  end.

(** [JSON.parse(text)] does not throw. *)
Definition parses (text : string) : bool := run Value [] text.

Definition double_quote : string := String (ascii_of_nat 34) EmptyString.

Definition hex_digit (n : nat) : ascii :=
  if Nat.ltb n 10 then ascii_of_nat (48 + n) else ascii_of_nat (87 + n).

(** A character inside the quotes of [JSON.stringify(text)]. *)
Definition quoted_char (c : ascii) : string :=
  let n := nat_of_ascii c in
  if Nat.eqb n 34 then "\" ++ double_quote
  else if Nat.eqb n 92 then "\\"
  else if Nat.eqb n 8 then "\b"
  else if Nat.eqb n 12 then "\f"
  else if Nat.eqb n 10 then "\n"
  else if Nat.eqb n 13 then "\r"
  else if Nat.eqb n 9 then "\t"
  else if Nat.ltb n 32
       then "\u00" ++ String (hex_digit (Nat.div n 16))
                        (String (hex_digit (Nat.modulo n 16)) EmptyString)
  else String c EmptyString.

Fixpoint quoted_chars (s : string) : string :=
  match s with
  | EmptyString => EmptyString
  | String c s' => quoted_char c ++ quoted_chars s'
  end.

(** [JSON.stringify(text)] for a string: the text between double quotes,
    with the double quote, the backslash and the control characters
    escaped. *)
Definition stringify_string (text : string) : string :=
  double_quote ++ quoted_chars text ++ double_quote.

End Json.

(** ** What axios hands over *)

Module Axios.

(** [response.data] of a request made with the defaults of axios: the
    value of the body when the body is JSON text, and the text of the body
    when it is not.  [Parsed text] stands for the value [JSON.parse(text)]. *)
Inductive Data :=
| Parsed (text : string)
| Raw (text : string).

(** A leading byte order mark is dropped. *)
Definition stripBOM (content : string) : string :=
  match content with
  | String a (String b (String c rest)) =>
      if (Json.code_is a 239 && Json.code_is b 187 && Json.code_is c 191)%bool
      then rest else content
  | _ => content
  end.

(** The default [transformResponse]: a text that is not empty is given to
    [JSON.parse]; when that throws the text is kept. *)
Definition data (body : string) : Data :=
  let text := stripBOM body in
  if (negb (String.eqb text "") && Json.parses text)%bool
  then Parsed text
  else Raw text.

End Axios.

(** ** HTTP responses *)

Inductive Body :=
| Data (rows : Sql.Rows)                 (* { data: rows } *)
| Error (message : string)               (* { error: message } *)
| Message (message : string)             (* { message: message } *)
| MessageId (message : string) (id : Z)  (* { message: message, id: id } *)
| Id (id : Z)                            (* { id: id } *)
| Relay (data : Axios.Data).             (* res.json(response.data) *)

Record Response := respond { status : Z; body : Body }.

(** What becomes of a request inside its handler: the handler answers, or
    it throws before it answers (what Express then does is not the
    handler's). *)
Inductive Reply :=
| Answer (r : Response)
| Throws (error : string).

(** A handler that always answers. *)
Definition answers (handler : Tables -> Response * Tables)
  : Tables -> Reply * Tables :=
  fun db => (Answer (fst (handler db)), snd (handler db)).

(** The status of the answer, if there is one. *)
Definition status_of (r : Reply) : option Z :=
  match r with
  | Answer a => Some (status a)
  | Throws _ => None
  end.

(** ** The store behind the driver

    [db.execute], [db.all] and [db.run] either fail with a message or hand
    back a result.  Why the store refuses a statement (a constraint of the
    schema, a lost connection) is not in the sources: it is the parameter
    [fault].  A text that does not parse is refused by every store. *)

Module Store.
Section Driver.

Variable fault : Tables -> Sql.Statement -> option string.

Definition execute (db : Tables) (st : Sql.Statement)
  : string + (Sql.ResultSet * Tables) :=
  match st with
  | Sql.Unparsable near => inl (Sql.syntax_error near)
  | _ =>
      match fault db st with
      | Some message => inl message
      | None => inr (Sql.run st db)
      end
  end.

End Driver.

(** A store that accepts every well-formed statement. *)
Definition healthy : Tables -> Sql.Statement -> option string :=
  fun _ _ => None.

Definition empty : Tables := mkTables [] [] [] [].

(** Modelled from the spec: the schema is not part of the sources.  The type
    of a modality must be an existing type, and the store enforces it: a
    modality written with a key that no type has is refused. *)
Definition foreign_keys : Tables -> Sql.Statement -> option string :=
  fun db st =>
    match st with
    | Sql.InsertModalidade p | Sql.UpdateModalidade p _ =>
        match Modalidade.tipo_id p with
        | Some k =>
            if existsb (fun t => Z.eqb (Tipo.id t) k) (tipos_compensacao db)
            then None
            else Some "SQLITE_CONSTRAINT: FOREIGN KEY constraint failed"
        | None => None
        end
    | _ => None
    end.

End Store.

(** ** The libsql server (the first text of [backend/server.js]) *)

Module Libsql.

(** [req.body] of the norma routes. *)
Record NormaBody := norma_body { nome : text; link : text; preambulo : text }.

(** The error of a call of [toLowerCase] on an array or an object. *)
Definition not_a_function : string :=
  "TypeError: searchTerm.toLowerCase is not a function".

Section Routes.

Variable js : Js.Engine.
Variable fault : Tables -> Sql.Statement -> option string.

Local Abbreviation execute := (Store.execute fault).

(** The statement of the search: [params] holds the pattern when the
    WHERE clause was added. *)
Definition search (params : option string) (db : Tables) : Reply * Tables :=
  match execute db (Sql.SelectNormas params) with
  | inr (result, db') => (Answer (respond 200 (Data (Sql.rows result))), db')
  | inl message => (Answer (respond 400 (Error message)), db)
  end.

(** [app.get("/api/v2/normas")].  The term is lowered before the [try]: a
    term that is no string makes the handler throw there. *)
Definition get_normas (q : Query.Param) (db : Tables) : Reply * Tables :=
  let searchTerm := q in
  if Query.truthy searchTerm then
    match searchTerm with
    | Some (Query.Str term) =>
        let lowerSearchTerm := "%" ++ Js.toLowerCase js term ++ "%" in
        search (Some lowerSearchTerm) db
    | _ => (Throws not_a_function, db)
    end
  else search None db.

(** [app.get("/api/v2/tipos")] *)
Definition get_tipos (db : Tables) : Response * Tables :=
  match execute db Sql.SelectTipos with
  | inr (result, db') => (respond 200 (Data (Sql.rows result)), db')
  | inl message => (respond 400 (Error message), db)
  end.

(** [app.get("/api/v2/modalidades")] *)
Definition get_modalidades (db : Tables) : Response * Tables :=
  match execute db Sql.SelectModalidades with
  | inr (result, db') => (respond 200 (Data (Sql.rows result)), db')
  | inl message => (respond 400 (Error message), db)
  end.

(** [app.get("/api/v2/tipos/:id/normas")] *)
Definition get_tipos_id_normas (id : Z) (db : Tables) : Response * Tables :=
  match execute db (Sql.SelectNormasOfTipo id) with
  | inr (result, db') => (respond 200 (Data (Sql.rows result)), db')
  | inl message => (respond 400 (Error message), db)
  end.

(** [app.post("/api/v2/normas")] *)
Definition post_normas (b : NormaBody) (db : Tables) : Response * Tables :=
  match execute db (Sql.InsertNorma (nome b) (link b) (preambulo b)) with
  | inr (_, db') => (respond 201 (Message "Norma criada com sucesso"), db')
  | inl message => (respond 400 (Error message), db)
  end.

(** [app.put("/api/v2/normas/:id")] *)
Definition put_normas_id (id : Z) (b : NormaBody) (db : Tables)
  : Response * Tables :=
  match execute db (Sql.UpdateNorma (nome b) (link b) (preambulo b) id) with
  | inr (_, db') => (respond 200 (Message "Norma atualizada com sucesso"), db')
  | inl message => (respond 400 (Error message), db)
  end.

(** [app.delete("/api/v2/normas/:id")] *)
Definition delete_normas_id (id : Z) (db : Tables) : Response * Tables :=
  match execute db (Sql.DeleteNorma id) with
  | inr (_, db') => (respond 200 (Message "Norma deletada com sucesso"), db')
  | inl message => (respond 400 (Error message), db)
  end.

(** [app.post("/api/v2/tipos")] *)
Definition post_tipos (nome : text) (db : Tables) : Response * Tables :=
  match execute db (Sql.InsertTipo nome) with
  | inr (result, db') =>
      (respond 201
         (MessageId "Tipo de compensação criado com sucesso"
                    (Sql.lastInsertRowid result)),
       db')
  | inl message => (respond 400 (Error message), db)
  end.

(** [app.put("/api/v2/tipos/:id")] *)
Definition put_tipos_id (id : Z) (nome : text) (db : Tables)
  : Response * Tables :=
  match execute db (Sql.UpdateTipo nome id) with
  | inr (_, db') => (respond 200 (Message "Tipo atualizado com sucesso"), db')
  | inl message => (respond 400 (Error message), db)
  end.

(** [app.delete("/api/v2/tipos/:id")] *)
Definition delete_tipos_id (id : Z) (db : Tables) : Response * Tables :=
  match execute db (Sql.DeleteTipo id) with
  | inr (_, db') => (respond 200 (Message "Tipo deletado com sucesso"), db')
  | inl message => (respond 400 (Error message), db)
  end.

(** [app.post("/api/v2/normas-tipos-compensacao")] *)
Definition post_normas_tipos_compensacao (tipo_id norma_id : option Z)
  (db : Tables) : Response * Tables :=
  match execute db (Sql.InsertNormaTipo tipo_id norma_id) with
  | inr (_, db') =>
      (respond 201 (Message "Associação criada com sucesso"), db')
  | inl message => (respond 400 (Error message), db)
  end.

(** [app.post("/api/v2/modalidades")] *)
Definition post_modalidades (p : Modalidade.fields) (db : Tables)
  : Response * Tables :=
  match execute db (Sql.InsertModalidade p) with
  | inr (_, db') =>
      (respond 201 (Message "Modalidade criada com sucesso"), db')
  | inl message => (respond 400 (Error message), db)
  end.

(** [app.put("/api/v2/modalidades/:id")] *)
Definition put_modalidades_id (id : Z) (p : Modalidade.fields) (db : Tables)
  : Response * Tables :=
  match execute db (Sql.UpdateModalidade p id) with
  | inr (_, db') =>
      (respond 200 (Message "Modalidade atualizada com sucesso"), db')
  | inl message => (respond 400 (Error message), db)
  end.

(** [app.delete("/api/v2/modalidades/:id")] *)
Definition delete_modalidades_id (id : Z) (db : Tables) : Response * Tables :=
  match execute db (Sql.DeleteModalidade id) with
  | inr (_, db') =>
      (respond 200 (Message "Modalidade deletada com sucesso"), db')
  | inl message => (respond 400 (Error message), db)
  end.

End Routes.

(** The routes of the server that reach the store. *)
Inductive Request :=
| GET_normas (q : Query.Param)
| GET_tipos
| GET_modalidades
| GET_tipos_id_normas (id : Z)
| POST_normas (b : NormaBody)
| PUT_normas_id (id : Z) (b : NormaBody)
| DELETE_normas_id (id : Z)
| POST_tipos (nome : text)
| PUT_tipos_id (id : Z) (nome : text)
| DELETE_tipos_id (id : Z)
| POST_normas_tipos_compensacao (tipo_id norma_id : option Z)
| POST_modalidades (p : Modalidade.fields)
| PUT_modalidades_id (id : Z) (p : Modalidade.fields)
| DELETE_modalidades_id (id : Z).

(** Express picks the handler registered for the method and the path. *)
Definition handle (js : Js.Engine)
  (fault : Tables -> Sql.Statement -> option string)
  (r : Request) : Tables -> Reply * Tables :=
  match r with
  | GET_normas q => get_normas js fault q
  | GET_tipos => answers (get_tipos fault)
  | GET_modalidades => answers (get_modalidades fault)
  | GET_tipos_id_normas id => answers (get_tipos_id_normas fault id)
  | POST_normas b => answers (post_normas fault b)
  | PUT_normas_id id b => answers (put_normas_id fault id b)
  | DELETE_normas_id id => answers (delete_normas_id fault id)
  | POST_tipos nome => answers (post_tipos fault nome)
  | PUT_tipos_id id nome => answers (put_tipos_id fault id nome)
  | DELETE_tipos_id id => answers (delete_tipos_id fault id)
  | POST_normas_tipos_compensacao t n =>
      answers (post_normas_tipos_compensacao fault t n)
  | POST_modalidades p => answers (post_modalidades fault p)
  | PUT_modalidades_id id p => answers (put_modalidades_id fault id p)
  | DELETE_modalidades_id id => answers (delete_modalidades_id fault id)
  end.

(** The statement a route sends to the store: the SQL text of the handler
    with its arguments bound.  The search sends none when its term is an
    array or an object. *)
Definition statement (js : Js.Engine) (r : Request) : option Sql.Statement :=
  match r with
  | GET_normas None | GET_normas (Some (Query.Str EmptyString)) =>
      Some (Sql.SelectNormas None)
  | GET_normas (Some (Query.Str q)) =>
      Some (Sql.SelectNormas (Some ("%" ++ Js.toLowerCase js q ++ "%")))
  | GET_normas (Some _) => None
  | GET_tipos => Some Sql.SelectTipos
  | GET_modalidades => Some Sql.SelectModalidades
  | GET_tipos_id_normas id => Some (Sql.SelectNormasOfTipo id)
  | POST_normas b => Some (Sql.InsertNorma (nome b) (link b) (preambulo b))
  | PUT_normas_id id b =>
      Some (Sql.UpdateNorma (nome b) (link b) (preambulo b) id)
  | DELETE_normas_id id => Some (Sql.DeleteNorma id)
  | POST_tipos nome => Some (Sql.InsertTipo nome)
  | PUT_tipos_id id nome => Some (Sql.UpdateTipo nome id)
  | DELETE_tipos_id id => Some (Sql.DeleteTipo id)
  | POST_normas_tipos_compensacao t n => Some (Sql.InsertNormaTipo t n)
  | POST_modalidades p => Some (Sql.InsertModalidade p)
  | PUT_modalidades_id id p => Some (Sql.UpdateModalidade p id)
  | DELETE_modalidades_id id => Some (Sql.DeleteModalidade id)
  end.

End Libsql.

(** ** The sqlite3 server (the second text of [backend/server.js]) *)

Module Sqlite3.

Section Routes.

Variable js : Js.Engine.
Variable fault : Tables -> Sql.Statement -> option string.

Local Abbreviation execute := (Store.execute fault).

(** The statement of the search and the callback of [db.all]. *)
Definition search (params : option string) (db : Tables) : Reply * Tables :=
  match execute db (Sql.SelectNormas params) with
  | inl message => (Answer (respond 400 (Error message)), db)
  | inr (result, db') => (Answer (respond 200 (Data (Sql.rows result))), db')
  end.

(** [app.get("/api/v2/normas")].  A term that is no string makes the
    handler throw at [toLowerCase]. *)
Definition get_normas (q : Query.Param) (db : Tables) : Reply * Tables :=
  let searchTerm := q in
  if Query.truthy searchTerm then
    match searchTerm with
    | Some (Query.Str term) =>
        let lowerSearchTerm := "%" ++ Js.toLowerCase js term ++ "%" in
        search (Some lowerSearchTerm) db
    | _ => (Throws Libsql.not_a_function, db)
    end
  else search None db.

(** [app.get("/api/v2/tipos")] *)
Definition get_tipos (db : Tables) : Response * Tables :=
  match execute db Sql.SelectTipos with
  | inl message => (respond 400 (Error message), db)
  | inr (result, db') => (respond 200 (Data (Sql.rows result)), db')
  end.

(** [app.get("/api/v2/modalidades")] *)
Definition get_modalidades (db : Tables) : Response * Tables :=
  match execute db Sql.SelectModalidades with
  | inl message => (respond 400 (Error message), db)
  | inr (result, db') => (respond 200 (Data (Sql.rows result)), db')
  end.

(** [app.get("/api/v2/normas-tipos-compensacao/:tipo_id")] *)
Definition get_normas_tipos_compensacao_tipo_id (tipo_id : Z) (db : Tables)
  : Response * Tables :=
  match execute db (Sql.SelectNormasOfTipo tipo_id) with
  | inl message => (respond 400 (Error message), db)
  | inr (result, db') => (respond 200 (Data (Sql.rows result)), db')
  end.

(** [app.post("/api/v2/normas")] *)
Definition post_normas (b : Libsql.NormaBody) (db : Tables)
  : Response * Tables :=
  match execute db (Sql.InsertNorma (Libsql.nome b) (Libsql.link b)
                                    (Libsql.preambulo b)) with
  | inl message => (respond 400 (Error message), db)
  | inr (this, db') => (respond 201 (Id (Sql.lastInsertRowid this)), db')
  end.

(** [app.put("/api/v2/normas/:id")] *)
Definition put_normas_id (id : Z) (b : Libsql.NormaBody) (db : Tables)
  : Response * Tables :=
  match execute db (Sql.UpdateNorma (Libsql.nome b) (Libsql.link b)
                                    (Libsql.preambulo b) id) with
  | inl message => (respond 400 (Error message), db)
  | inr (_, db') => (respond 200 (Message "Norma atualizada com sucesso"), db')
  end.

(** [app.delete("/api/v2/normas/:id")] *)
Definition delete_normas_id (id : Z) (db : Tables) : Response * Tables :=
  match execute db (Sql.DeleteNorma id) with
  | inl message => (respond 400 (Error message), db)
  | inr (this, db') =>
      if Nat.eqb (Sql.changes this) 0
      then (respond 404 (Message "Norma não encontrada."), db')
      else (respond 200 (Message "Norma deletada com sucesso"), db')
  end.

(** [app.post("/api/v2/tipos")] *)
Definition post_tipos (nome : text) (db : Tables) : Response * Tables :=
  match execute db (Sql.InsertTipo nome) with
  | inl message => (respond 400 (Error message), db)
  | inr (this, db') => (respond 201 (Id (Sql.lastInsertRowid this)), db')
  end.

(** [app.put("/api/v2/tipos/:id")].  The text of this statement is
    [UPDATE tipos_compensacao SET nome = ?, WHERE id = ?]: the comma before
    WHERE does not parse. *)
Definition put_tipos_id (id : Z) (nome : text) (db : Tables)
  : Response * Tables :=
  match execute db (Sql.Unparsable "WHERE") with
  | inl message => (respond 400 (Error message), db)
  | inr (_, db') => (respond 200 (Message "Tipo atualizado com sucesso"), db')
  end.

(** [app.delete("/api/v2/tipos/:id")] *)
Definition delete_tipos_id (id : Z) (db : Tables) : Response * Tables :=
  match execute db (Sql.DeleteTipo id) with
  | inl message => (respond 400 (Error message), db)
  | inr (this, db') =>
      if Nat.eqb (Sql.changes this) 0
      then (respond 404 (Message "Tipo não encontrado."), db')
      else (respond 200 (Message "Tipo deletado com sucesso"), db')
  end.

(** [app.post("/api/v2/modalidades")] *)
Definition post_modalidades (p : Modalidade.fields) (db : Tables)
  : Response * Tables :=
  match execute db (Sql.InsertModalidade p) with
  | inl message => (respond 400 (Error message), db)
  | inr (this, db') => (respond 201 (Id (Sql.lastInsertRowid this)), db')
  end.

(** [app.put("/api/v2/modalidades/:id")] *)
Definition put_modalidades_id (id : Z) (p : Modalidade.fields) (db : Tables)
  : Response * Tables :=
  match execute db (Sql.UpdateModalidade p id) with
  | inl message => (respond 400 (Error message), db)
  | inr (_, db') =>
      (respond 200 (Message "Modalidade atualizada com sucesso"), db')
  end.

(** [app.delete("/api/v2/modalidades/:id")] *)
Definition delete_modalidades_id (id : Z) (db : Tables) : Response * Tables :=
  match execute db (Sql.DeleteModalidade id) with
  | inl message => (respond 400 (Error message), db)
  | inr (this, db') =>
      if Nat.eqb (Sql.changes this) 0
      then (respond 404 (Message "Modalidade não encontrada."), db')
      else (respond 200 (Message "Modalidade deletada com sucesso"), db')
  end.

End Routes.

Inductive Request :=
| GET_normas (q : Query.Param)
| GET_tipos
| GET_modalidades
| GET_normas_tipos_compensacao_tipo_id (tipo_id : Z)
| POST_normas (b : Libsql.NormaBody)
| PUT_normas_id (id : Z) (b : Libsql.NormaBody)
| DELETE_normas_id (id : Z)
| POST_tipos (nome : text)
| PUT_tipos_id (id : Z) (nome : text)
| DELETE_tipos_id (id : Z)
| POST_modalidades (p : Modalidade.fields)
| PUT_modalidades_id (id : Z) (p : Modalidade.fields)
| DELETE_modalidades_id (id : Z).

Definition handle (js : Js.Engine)
  (fault : Tables -> Sql.Statement -> option string)
  (r : Request) : Tables -> Reply * Tables :=
  match r with
  | GET_normas q => get_normas js fault q
  | GET_tipos => answers (get_tipos fault)
  | GET_modalidades => answers (get_modalidades fault)
  | GET_normas_tipos_compensacao_tipo_id id =>
      answers (get_normas_tipos_compensacao_tipo_id fault id)
  | POST_normas b => answers (post_normas fault b)
  | PUT_normas_id id b => answers (put_normas_id fault id b)
  | DELETE_normas_id id => answers (delete_normas_id fault id)
  | POST_tipos nome => answers (post_tipos fault nome)
  | PUT_tipos_id id nome => answers (put_tipos_id fault id nome)
  | DELETE_tipos_id id => answers (delete_tipos_id fault id)
  | POST_modalidades p => answers (post_modalidades fault p)
  | PUT_modalidades_id id p => answers (put_modalidades_id fault id p)
  | DELETE_modalidades_id id => answers (delete_modalidades_id fault id)
  end.

Definition statement (js : Js.Engine) (r : Request) : option Sql.Statement :=
  match r with
  | GET_normas None | GET_normas (Some (Query.Str EmptyString)) =>
      Some (Sql.SelectNormas None)
  | GET_normas (Some (Query.Str q)) =>
      Some (Sql.SelectNormas (Some ("%" ++ Js.toLowerCase js q ++ "%")))
  | GET_normas (Some _) => None
  | GET_tipos => Some Sql.SelectTipos
  | GET_modalidades => Some Sql.SelectModalidades
  | GET_normas_tipos_compensacao_tipo_id id =>
      Some (Sql.SelectNormasOfTipo id)
  | POST_normas b =>
      Some (Sql.InsertNorma (Libsql.nome b) (Libsql.link b)
                            (Libsql.preambulo b))
  | PUT_normas_id id b =>
      Some (Sql.UpdateNorma (Libsql.nome b) (Libsql.link b)
                            (Libsql.preambulo b) id)
  | DELETE_normas_id id => Some (Sql.DeleteNorma id)
  | POST_tipos nome => Some (Sql.InsertTipo nome)
  | PUT_tipos_id id nome => Some (Sql.Unparsable "WHERE")
  | DELETE_tipos_id id => Some (Sql.DeleteTipo id)
  | POST_modalidades p => Some (Sql.InsertModalidade p)
  | PUT_modalidades_id id p => Some (Sql.UpdateModalidade p id)
  | DELETE_modalidades_id id => Some (Sql.DeleteModalidade id)
  end.

End Sqlite3.

(** ** The two servers side by side *)

Inductive Server := libsql | sqlite3.

Definition Route (s : Server) : Type :=
  match s with
  | libsql => Libsql.Request
  | sqlite3 => Sqlite3.Request
  end.

Definition handle (s : Server) (js : Js.Engine)
  : (Tables -> Sql.Statement -> option string) ->
    Route s -> Tables -> Reply * Tables :=
  match s with
  | libsql => Libsql.handle js
  | sqlite3 => Sqlite3.handle js
  end.

Definition statement (s : Server) (js : Js.Engine)
  : Route s -> option Sql.Statement :=
  match s with
  | libsql => Libsql.statement js
  | sqlite3 => Sqlite3.statement js
  end.

(** ** The proxy of the IDE SISEMA feature service

    Both servers carry the same two routes. *)

Module Sisema.

Definition WFS_BASE_URL : string :=
  "http://geoserver.meioambiente.mg.gov.br/ows".

Definition TYPENAME_unidades_conservacao : string :=
  "ide_2010_mg_unidades_conservacao_estaduais_pol".

Definition TYPENAME_imoveis_compensacao : string :=
  "ide_2104_mg_imoveis_disponiveis_compensacao_ambiental_pto".

(** [req.query] of the two routes. *)
Record Query := query { bbox : Query.Param; cql_filter : Query.Param }.

(** What a handler did: the lines it wrote to the console, the URLs it
    asked [axios.get] for, and its answer. *)
Record Exchange := exchange {
  console : list string;
  requested : list string;
  response : Response
}.

(** [`&name=${value}`] for a value that passed the truthiness test. *)
Definition pasted (name : string) (value : Query.Param) : string :=
  match value with
  | Some v => "&" ++ name ++ "=" ++ Query.toString v
  | None => "&" ++ name ++ "=undefined"
  end.

(** The value of [wfsUrl] when the request is sent. *)
Definition wfsUrl (TYPENAME : string) (q : Query) : string :=
  let wfsUrl :=
    WFS_BASE_URL ++ "?service=WFS&version=2.0.0&request=GetFeature&typename="
    ++ TYPENAME ++ "&outputFormat=application/json" in
  let wfsUrl :=
    if Query.truthy (bbox q) then wfsUrl ++ pasted "bbox" (bbox q)
    else wfsUrl in
  let wfsUrl :=
    if Query.truthy (cql_filter q)
    then wfsUrl ++ pasted "cql_filter" (cql_filter q)
    else wfsUrl in
  wfsUrl.

Section Routes.

(** [axios.get]: the message of the error it throws (no answer, a status
    outside 2xx), or the body of the answer of the upstream. *)
Variable axios_get : string -> string + string.

(** [app.get("/api/v2/sisema/unidades-conservacao")] *)
Definition get_unidades_conservacao (q : Query) : Exchange :=
  let url := wfsUrl TYPENAME_unidades_conservacao q in
  let log := "Consultando WFS (UCs): " ++ url in
  match axios_get url with
  | inr upstream =>
      exchange [log] [url] (respond 200 (Relay (Axios.data upstream)))
  | inl message =>
      exchange [log; "Erro ao consultar UCs do SISEMA: " ++ message] [url]
               (respond 500 (Error "Falha ao obter dados de UCs do SISEMA."))
  end.

(** [app.get("/api/v2/sisema/imoveis-compensacao")] *)
Definition get_imoveis_compensacao (q : Query) : Exchange :=
  let url := wfsUrl TYPENAME_imoveis_compensacao q in
  let log := "Consultando WFS (Imóveis): " ++ url in
  match axios_get url with
  | inr upstream =>
      exchange [log] [url] (respond 200 (Relay (Axios.data upstream)))
  | inl message =>
      exchange [log; "Erro ao consultar Imóveis do SISEMA: " ++ message] [url]
               (respond 500
                  (Error "Falha ao obter dados de Imóveis do SISEMA."))
  end.

End Routes.

End Sisema.

(** ** The page controller (the browser script)

    The script keeps three arrays ([tipos], [modalidades], [normas]) and
    writes to five elements of the page.  A [Page] is the value of the
    arrays together with what the script can observe or change of the
    elements. *)

Module Frontend.

Inductive Display := unset | none | block.

(** The [value] of the type selector: the empty string of the placeholder
    option, or the decimal text of the key of a type. *)
Inductive SelectValue :=
| Placeholder
| KeyText (id : Z).

(** An [<li>] of [#lista-modalidades]: its text, [dataset.id], whether it
    carries the class [active], and the key captured by its click listener
    (an item written through [innerHTML] has none). *)
Record Li := li {
  textContent : string;
  dataset_id : option Z;
  active : bool;
  listener : option Z
}.

(** An [<a>] of the list of related norms. *)
Record Anchor := anchor { href : string; label : string; target : string }.

Record Box := box { display : Display; innerHTML : string }.

Record NormasDiv := normas_div { shown : Display; ul : list Anchor }.

Record Page := page {
  tipos : list Tipo.t;
  modalidades : list Modalidade.t;
  normas : list Norma.t;
  tipoSelect : list (SelectValue * string);
  modalidadesList : list Li;
  detalhesDiv : Box;
  normasDiv : NormasDiv;
  siscalBtnContainer : Box
}.

Definition set_modalidadesList (p : Page) (l : list Li) : Page :=
  page (tipos p) (modalidades p) (normas p) (tipoSelect p) l
       (detalhesDiv p) (normasDiv p) (siscalBtnContainer p).

Definition set_detalhesDiv (p : Page) (b : Box) : Page :=
  page (tipos p) (modalidades p) (normas p) (tipoSelect p)
       (modalidadesList p) b (normasDiv p) (siscalBtnContainer p).

Definition set_normasDiv (p : Page) (d : NormasDiv) : Page :=
  page (tipos p) (modalidades p) (normas p) (tipoSelect p)
       (modalidadesList p) (detalhesDiv p) d (siscalBtnContainer p).

Definition set_siscalBtnContainer (p : Page) (b : Box) : Page :=
  page (tipos p) (modalidades p) (normas p) (tipoSelect p)
       (modalidadesList p) (detalhesDiv p) (normasDiv p) b.

(** An item that came from an [innerHTML] assignment. *)
Definition plain_li (s : string) : Li := li s None false None.

(** [key == value] for a number (or null) against the text of the selector:
    the text is read as a number, the empty text as 0; null equals no
    string. *)
Definition loose_eq_text (key : option Z) (v : SelectValue) : bool :=
  match key, v with
  | None, _ => false
  | Some k, Placeholder => Z.eqb k 0
  | Some k, KeyText z => Z.eqb k z
  end.

(** [key == other] for a number against a number or null. *)
Definition loose_eq_key (key : Z) (other : option Z) : bool :=
  match other with
  | None => false
  | Some k => Z.eqb key k
  end.

(** The empty string is falsy, every other string is truthy. *)
Definition truthy_value (v : SelectValue) : bool :=
  match v with
  | Placeholder => false
  | KeyText _ => true
  end.

(** Assigning null to [textContent] empties the element. *)
Definition as_textContent (v : text) : string :=
  match v with
  | None => ""
  | Some s => s
  end.

(** [fetchData(endpoint)]: [r] is [None] when the request fails or the
    status is not ok, and the [data] of the answer otherwise. *)
Definition fetchData {A} (r : option (list A)) (p : Page) : list A * Page :=
  match r with
  | Some data => (data, p)
  | None =>
      ([], set_modalidadesList p
             [plain_li "Erro ao carregar dados. Verifique o console."])
  end.

(** [loadInitialData()] *)
Definition loadInitialData (r_tipos : option (list Tipo.t))
  (r_modalidades : option (list Modalidade.t))
  (r_normas : option (list Norma.t)) (p : Page) : Page :=
  let (tipos', p) := fetchData r_tipos p in
  let (modalidades', p) := fetchData r_modalidades p in
  let (normas', p) := fetchData r_normas p in
  page tipos' modalidades' normas'
       ((Placeholder, "-- Selecione um Tipo --")
        :: map (fun tipo => (KeyText (Tipo.id tipo),
                             as_textContent (Tipo.nome tipo))) tipos')
       (modalidadesList p) (detalhesDiv p) (normasDiv p)
       (siscalBtnContainer p).

(** [displayModalidades] awaits one fetch; [Await] is the function
    suspended at that point. *)
Inductive Suspended :=
| Finished (p : Page)
| Await (tipoId : SelectValue) (p : Page).

Definition page_of (s : Suspended) : Page :=
  match s with
  | Finished p => p
  | Await _ p => p
  end.

(** [displayModalidades(tipoId)] up to its [await]. *)
Definition displayModalidades (tipoId : SelectValue) (p : Page) : Suspended :=
  let p := set_detalhesDiv p (box none (innerHTML (detalhesDiv p))) in
  let p := set_modalidadesList p [] in
  let p := set_siscalBtnContainer p (box none "") in
  let filteredModalidades :=
    filter (fun m => loose_eq_text (Modalidade.tipo_id (Modalidade.columns m))
                                   tipoId)
           (modalidades p) in
  let p :=
    if Nat.eqb (List.length filteredModalidades) 0 then
      if truthy_value tipoId
      then set_modalidadesList p
             [plain_li "Nenhuma modalidade encontrada para este tipo."]
      else p
    else
      set_modalidadesList p
        (map (fun modalidade =>
                li (as_textContent
                      (Modalidade.nome (Modalidade.columns modalidade)))
                   (Some (Modalidade.id modalidade))
                   false
                   (Some (Modalidade.id modalidade)))
             filteredModalidades) in
  if negb (truthy_value tipoId) then
    Finished (set_normasDiv p (normas_div none (ul (normasDiv p))))
  else
    match find (fun t => loose_eq_text (Some (Tipo.id t)) tipoId) (tipos p) with
    | None => Finished p
    | Some _ => Await tipoId p
    end.

(** The rest of [displayModalidades], run when the fetch of
    [tipos/:id/normas] settles with [r]. *)
Definition resume (r : option (list Norma.t)) (p : Page) : Page :=
  let (normasRelacionadas, p) := fetchData r p in
  if Nat.ltb 0 (List.length normasRelacionadas) then
    set_normasDiv p
      (normas_div block
         (map (fun norma =>
                 anchor (Js.interpolate (Norma.link norma))
                        (as_textContent (Norma.nome norma))
                        "_blank")
              normasRelacionadas))
  else set_normasDiv p (normas_div none []).

(** Where a [TypeError] is thrown. *)
Inductive Site :=
| modalidade_tipo_id   (* [modalidade.tipo_id] on undefined *)
| tipo_nome_trim       (* [tipo.nome.trim()] on null *)
| modalidade_nome_trim.  (* [modalidade.nome.trim()] on null *)

(** How a call of [displayDetalhes] ends, and the page it leaves.
    [Returned] is the [return] of the guard; it records the value of each
    operand of [!modalidade || !tipo]. *)
Inductive Outcome :=
| Threw (at_ : Site) (p : Page)
| Returned (no_modalidade no_tipo : bool) (p : Page)
| Rendered (p : Page).

Definition left_by (o : Outcome) : Page :=
  match o with
  | Threw _ p => p
  | Returned _ _ p => p
  | Rendered p => p
  end.

Definition is_none {A} (o : option A) : bool :=
  match o with
  | None => true
  | Some _ => false
  end.

(** The labelled fields of the detail panel, in the order of the object
    literal [campos]. *)
Definition campos (modalidade : Modalidade.fields) : list (string * text) :=
  [ ("Proporção", Modalidade.proporcao modalidade);
    ("Forma", Modalidade.forma modalidade);
    ("Especificidades da Área", Modalidade.especificidades modalidade);
    ("Vantagens", Modalidade.vantagens modalidade);
    ("Desvantagens", Modalidade.desvantagens modalidade);
    ("Documentos Necessários", Modalidade.documentos modalidade);
    ("Observações", Modalidade.observacao modalidade) ].

Definition campo_html (js : Js.Engine) (detalhesHtml : string)
  (campo : string * text) : string :=
  let (chave, valor) := campo in
  match valor with
  | Some v =>
      if (Js.truthy valor && negb (String.eqb (Js.trim js v) ""))%bool
      then detalhesHtml ++ "<strong>" ++ chave ++ ":</strong><p>"
           ++ Js.replace_newlines "<br>" v ++ "</p>"
      else detalhesHtml
  | None => detalhesHtml
  end.

Definition attribute (name value : string) : string :=
  name ++ "=" ++ Sql.double_quote ++ value ++ Sql.double_quote.

Definition newline : string := String (ascii_of_nat 10) EmptyString.

(** The markup of the call-to-action button. *)
Definition siscal_button : string :=
  newline ++ "        <a " ++ attribute "href" "https://siscal.netlify.app/"
  ++ " " ++ attribute "target" "_blank"
  ++ " " ++ attribute "class" "siscal-btn"
  ++ " " ++ attribute "style" "display:inline-block;padding:10px 20px;background:#1976d2;color:#fff;border:none;border-radius:4px;text-decoration:none;font-weight:bold;"
  ++ ">Cálculo de Compensação</a>" ++ newline ++ "      ".

(** [displayDetalhes(modalidadeId)] *)
Definition displayDetalhes (js : Js.Engine) (modalidadeId : Z) (p : Page)
  : Outcome :=
  let modalidade :=
    find (fun m => Z.eqb (Modalidade.id m) modalidadeId) (modalidades p) in
  match modalidade with
  | None => Threw modalidade_tipo_id p
  | Some m =>
      let tipo :=
        find (fun t => loose_eq_key (Tipo.id t)
                         (Modalidade.tipo_id (Modalidade.columns m)))
             (tipos p) in
      if (is_none modalidade || is_none tipo)%bool
      then Returned (is_none modalidade) (is_none tipo) p
      else
        let detalhesHtml :=
          "<h3>" ++ Js.interpolate (Modalidade.nome (Modalidade.columns m))
          ++ "</h3>" in
        let detalhesHtml :=
          fold_left (campo_html js) (campos (Modalidade.columns m))
                    detalhesHtml in
        let p := set_detalhesDiv p (box block detalhesHtml) in
        let p := set_siscalBtnContainer p (box none "") in
        match tipo with
        | None => Rendered p
        | Some t =>
            match Tipo.nome t with
            | None => Threw tipo_nome_trim p
            | Some tipo_nome =>
                if String.eqb (Js.toUpperCase js (Js.trim js tipo_nome))
                              "SNUC" then
                  match Modalidade.nome (Modalidade.columns m) with
                  | None => Threw modalidade_nome_trim p
                  | Some modalidade_nome =>
                      if String.eqb
                           (Js.toUpperCase js (Js.trim js modalidade_nome))
                           "PAGAMENTO"
                      then Rendered
                             (set_siscalBtnContainer p
                                (box block siscal_button))
                      else Rendered p
                  end
                else Rendered p
            end
        end
  end.

Definition deactivate (item : Li) : Li :=
  li (textContent item) (dataset_id item) false (listener item).

Definition activate (item : Li) : Li :=
  li (textContent item) (dataset_id item) true (listener item).

Fixpoint activate_nth (i : nat) (l : list Li) : list Li :=
  match l, i with
  | [], _ => []
  | x :: l', O => activate x :: l'
  | x :: l', S i' => x :: activate_nth i' l'
  end.

(** A click on the [i]-th item of the list.  Only the items that
    [displayModalidades] created listen. *)
Definition click (js : Js.Engine) (i : nat) (p : Page) : Outcome :=
  match nth_error (modalidadesList p) i with
  | Some item =>
      match listener item with
      | Some modalidade_id =>
          let p := set_modalidadesList p
                     (activate_nth i (map deactivate (modalidadesList p))) in
          displayDetalhes js modalidade_id p
      | None => Rendered p
      end
  | None => Rendered p
  end.

(** The button is on the page. *)
Definition button_revealed (p : Page) : bool :=
  match display (siscalBtnContainer p) with
  | block => true
  | _ => false
  end.

(** The item that [displayModalidades] creates for a modality. *)
Definition rendered (m : Modalidade.t) : Li :=
  li (as_textContent (Modalidade.nome (Modalidade.columns m)))
     (Some (Modalidade.id m)) false (Some (Modalidade.id m)).

(** The items of the list that listen captured the key of a loaded
    modality. *)
Definition listeners_loaded (p : Page) : Prop :=
  forall item id,
    In item (modalidadesList p) -> listener item = Some id ->
    exists m, In m (modalidades p) /\ Modalidade.id m = id.

(** The call ended without throwing. *)
Definition completes (o : Outcome) : bool :=
  match o with
  | Threw _ _ => false
  | _ => true
  end.

(** The modalities that the list shows once the option of [t] is chosen. *)
Definition listed (t : Tipo.t) (p : Page) : list Modalidade.t :=
  filter (fun m => loose_eq_text (Modalidade.tipo_id (Modalidade.columns m))
                                 (KeyText (Tipo.id t)))
         (modalidades p).


(** *** The runs of the script

    The change listener is installed before [loadInitialData] is awaited,
    so the selector can fire, and a fetch of [loadInitialData] can fail,
    while the arrays are still empty; [loadInitialData] runs once. *)

Definition fresh (p : Page) : Prop :=
  tipos p = [] /\ modalidades p = [] /\ normas p = []
  /\ forall item, In item (modalidadesList p) -> listener item = None.

Inductive booting : Page -> Prop :=
| boot_start p : fresh p -> booting p
| boot_change v p : booting p -> booting (page_of (displayModalidades v p))
| boot_fetch_failed p :
    booting p -> booting (snd (fetchData (@None (list Norma.t)) p)).

Inductive reachable (js : Js.Engine) : Page -> Prop :=
| run_loaded r1 r2 r3 p :
    booting p -> reachable js (loadInitialData r1 r2 r3 p)
| run_change v p :
    reachable js p -> reachable js (page_of (displayModalidades v p))
| run_resume r p :
    reachable js p -> reachable js (resume r p)
| run_click i p :
    reachable js p -> reachable js (left_by (click js i p)).

End Frontend.

(** ** The vocabulary of the specification *)

Module Spec.

(** [q] occurs in [s]. *)
Definition contains (q s : string) : Prop :=
  exists a b, s = a ++ q ++ b.

(** [q] occurs in the column up to the case of the letters A-Z; a NULL
    column contains nothing. *)
Definition contains_ignoring_case (q : string) (col : text) : Prop :=
  exists s, col = Some s /\ contains (Js.ascii_lower q) (Js.ascii_lower s).

(** The norma has [q] in its name, its link or its preamble. *)
Definition norma_matches (q : string) (n : Norma.t) : Prop :=
  contains_ignoring_case q (Norma.nome n)
  \/ contains_ignoring_case q (Norma.link n)
  \/ contains_ignoring_case q (Norma.preambulo n).

(** Ascending by name in the collation of the store. *)
Definition ordered_by_nome (l : list Norma.t) : Prop :=
  Sorted (fun a b => Sql.text_leb (Norma.nome a) (Norma.nome b) = true) l.








(** The text of a body on the wire, where the embedding determines it: a
    relayed text goes out as a JSON string. *)
Definition wire (b : Body) : option string :=
  match b with
  | Relay (Axios.Raw text) => Some (Json.stringify_string text)
  | _ => None
  end.





End Spec.

(** ** Sample data *)

Module Sample.

Definition decreto : Norma.t :=
  Norma.make 1 (Some "Decreto 47.749/2019")
             (Some "https://www.almg.gov.br/decreto/47749")
             (Some "Dispõe sobre os processos de autorização").

Definition lei : Norma.t :=
  Norma.make 2 (Some "Lei 20.922/2013") None None.

Definition uma_norma : Tables := mkTables [decreto] [] [] [].

Definition snuc : Tipo.t := Tipo.make 1 (Some "SNUC").


Definition reserva_legal : Tipo.t := Tipo.make 2 (Some "Reserva Legal").

Definition pagamento : Modalidade.t :=
  Modalidade.make 1
    (Modalidade.make_fields (Some 1) (Some "Pagamento") (Some "0,5%")
       None None None None None None).

Definition reflorestamento : Modalidade.t :=
  Modalidade.make 2
    (Modalidade.make_fields (Some 1) (Some "Reflorestamento") None
       None None None None None None).



Definition associado : Tables :=
  mkTables [decreto; lei] [snuc; reserva_legal] [pagamento]
           [NormaTipo.make (Some 1) (Some 1)].

Definition blank : Frontend.Page :=
  Frontend.page [] [] [] [] []
    (Frontend.box Frontend.unset "")
    (Frontend.normas_div Frontend.unset [])
    (Frontend.box Frontend.unset "").

(** The page once the three collections are loaded. *)
Definition loaded : Frontend.Page :=
  Frontend.loadInitialData (Some [snuc; reserva_legal])
    (Some [pagamento; reflorestamento]) (Some [decreto]) blank.



End Sample.

(** ** Methods, keys and views

    Vocabulary for the properties of the routes and of the page that go
    beyond the specification. *)

Module Http.

Inductive Method := GET | POST | PUT | DELETE.

(** The method under which the libsql server registers a route. *)
Definition libsql_method (r : Libsql.Request) : Method :=
  match r with
  | Libsql.GET_normas _ | Libsql.GET_tipos | Libsql.GET_modalidades
  | Libsql.GET_tipos_id_normas _ => GET
  | Libsql.POST_normas _ | Libsql.POST_tipos _
  | Libsql.POST_normas_tipos_compensacao _ _
  | Libsql.POST_modalidades _ => POST
  | Libsql.PUT_normas_id _ _ | Libsql.PUT_tipos_id _ _
  | Libsql.PUT_modalidades_id _ _ => PUT
  | Libsql.DELETE_normas_id _ | Libsql.DELETE_tipos_id _
  | Libsql.DELETE_modalidades_id _ => DELETE
  end.

(** The method under which the sqlite3 server registers a route. *)
Definition sqlite3_method (r : Sqlite3.Request) : Method :=
  match r with
  | Sqlite3.GET_normas _ | Sqlite3.GET_tipos | Sqlite3.GET_modalidades
  | Sqlite3.GET_normas_tipos_compensacao_tipo_id _ => GET
  | Sqlite3.POST_normas _ | Sqlite3.POST_tipos _
  | Sqlite3.POST_modalidades _ => POST
  | Sqlite3.PUT_normas_id _ _ | Sqlite3.PUT_tipos_id _ _
  | Sqlite3.PUT_modalidades_id _ _ => PUT
  | Sqlite3.DELETE_normas_id _ | Sqlite3.DELETE_tipos_id _
  | Sqlite3.DELETE_modalidades_id _ => DELETE
  end.

Definition method (s : Server) : Route s -> Method :=
  match s with
  | libsql => libsql_method
  | sqlite3 => sqlite3_method
  end.

(** The status of the answer to a statement that the store accepted and
    that changed [changes] rows. *)
Definition success_status (s : Server) (m : Method) (changes : nat) : Z :=
  match m, s with
  | POST, _ => 201
  | DELETE, sqlite3 => if Nat.eqb changes 0 then 404 else 200
  | _, _ => 200
  end.

(** The keys of the three keyed tables and the association rows. *)
Definition keys (db : Tables)
  : list Z * list Z * list Z * list NormaTipo.t :=
  (map Norma.id (normas db), map Tipo.id (tipos_compensacao db),
   map Modalidade.id (modalidades db), normas_tipos_compensacao db).

End Http.

Module View.

(** The number that [==] reads in the value of the selector. *)
Definition selected_key (v : Frontend.SelectValue) : Z :=
  match v with
  | Frontend.Placeholder => 0
  | Frontend.KeyText k => k
  end.

(** The loaded modalities whose type has key [k], in the order of the
    array. *)
Definition of_type (k : Z) (p : Frontend.Page) : list Modalidade.t :=
  filter (fun m => Sql.fk_eqb (Modalidade.tipo_id (Modalidade.columns m)) k)
         (Frontend.modalidades p).

(** A field of the detail panel that has something to show. *)
Definition shown_field (js : Js.Engine) (campo : string * text) : bool :=
  match snd campo with
  | Some v => negb (String.eqb (Js.trim js v) "")
  | None => false
  end.

(** The labelled section of a field. *)
Definition section_html (campo : string * text) : string :=
  "<strong>" ++ fst campo ++ ":</strong><p>"
  ++ Js.replace_newlines "<br>" (Frontend.as_textContent (snd campo))
  ++ "</p>".

(** What the script keeps of the three collections. *)
Definition arrays (p : Frontend.Page)
  : list Tipo.t * list Modalidade.t * list Norma.t
    * list (Frontend.SelectValue * string) :=
  (Frontend.tipos p, Frontend.modalidades p, Frontend.normas p,
   Frontend.tipoSelect p).

End View.

(** Rows that the API accepts although a name is missing. *)
Module Edge.

Definition sem_nome : Tipo.t := Tipo.make 3 None.

Definition plantio : Modalidade.t :=
  Modalidade.make 3
    (Modalidade.make_fields (Some 3) (Some "Plantio") None
       None None None None None None).

Definition loaded : Frontend.Page :=
  Frontend.loadInitialData (Some [Sample.snuc; sem_nome])
    (Some [Sample.pagamento; plantio]) None Sample.blank.

End Edge.

(** ** Strings *)

Lemma append_nil_r (s : string) : s ++ "" = s.
Proof. induction s; simpl; congruence. Qed.

Lemma append_assoc (a b c : string) : (a ++ b) ++ c = a ++ (b ++ c).
Proof. induction a; simpl; congruence. Qed.


Lemma lower_char_idem (c : ascii) :
  Js.lower_char (Js.lower_char c) = Js.lower_char c.
Proof. destruct c as [[] [] [] [] [] [] [] []]; reflexivity. Qed.



Lemma ascii_lower_idem (s : string) :
  Js.ascii_lower (Js.ascii_lower s) = Js.ascii_lower s.
Proof. induction s; simpl; [|rewrite lower_char_idem]; congruence. Qed.





(** ** LIKE *)




Lemma is_ascii_lower (s : string) :
  Js.is_ascii (Js.ascii_lower s) = Js.is_ascii s.
Proof.
  induction s as [|c s IH]; simpl; [reflexivity|]. rewrite IH. f_equal.
  destruct c as [[] [] [] [] [] [] [] []]; reflexivity.
Qed.

Lemma is_ascii_upper (s : string) :
  Js.is_ascii (Js.ascii_upper s) = Js.is_ascii s.
Proof.
  induction s as [|c s IH]; simpl; [reflexivity|]. rewrite IH. f_equal.
  destruct c as [[] [] [] [] [] [] [] []]; reflexivity.
Qed.












(** ** ORDER BY nome *)

Lemma text_leb_total (a b : text) :
  Sql.text_leb a b = true \/ Sql.text_leb b a = true.
Proof.
  destruct a as [x|], b as [y|]; simpl; auto using String.leb_total.
Qed.

Lemma insert_by_nome_perm (r : Norma.t) (l : list Norma.t) :
  Permutation (r :: l) (Sql.insert_by_nome r l).
Proof.
  induction l as [|x l IH]; simpl; [reflexivity|].
  destruct (Sql.text_leb (Norma.nome r) (Norma.nome x)); [reflexivity|].
  rewrite perm_swap. now apply perm_skip.
Qed.

Lemma order_by_nome_perm (l : list Norma.t) :
  Permutation l (Sql.order_by_nome l).
Proof.
  induction l as [|x l IH]; simpl; [reflexivity|].
  rewrite <- insert_by_nome_perm. now apply perm_skip.
Qed.

Lemma order_by_nome_In (l : list Norma.t) (n : Norma.t) :
  In n (Sql.order_by_nome l) <-> In n l.
Proof.
  split; apply Permutation_in;
    [symmetry|]; apply order_by_nome_perm.
Qed.

Lemma insert_by_nome_head (r x : Norma.t) (l : list Norma.t) :
  Sql.text_leb (Norma.nome x) (Norma.nome r) = true ->
  HdRel (fun a b => Sql.text_leb (Norma.nome a) (Norma.nome b) = true) x l ->
  HdRel (fun a b => Sql.text_leb (Norma.nome a) (Norma.nome b) = true) x
        (Sql.insert_by_nome r l).
Proof.
  intros Hxr Hhd. destruct l as [|y l]; simpl.
  - now constructor.
  - destruct (Sql.text_leb (Norma.nome r) (Norma.nome y)); constructor;
      [assumption|now inversion Hhd].
Qed.

Lemma insert_by_nome_sorted (r : Norma.t) (l : list Norma.t) :
  Spec.ordered_by_nome l -> Spec.ordered_by_nome (Sql.insert_by_nome r l).
Proof.
  unfold Spec.ordered_by_nome.
  induction l as [|x l IH]; intros Hs; simpl.
  - repeat constructor.
  - destruct (Sql.text_leb (Norma.nome r) (Norma.nome x)) eqn:Hrx.
    + constructor; [assumption|now constructor].
    + inversion Hs as [|? ? Hs' Hhd]; subst.
      constructor; [now apply IH|].
      apply insert_by_nome_head; [|assumption].
      destruct (text_leb_total (Norma.nome r) (Norma.nome x)); congruence.
Qed.

Lemma order_by_nome_sorted (l : list Norma.t) :
  Spec.ordered_by_nome (Sql.order_by_nome l).
Proof.
  induction l as [|x l IH]; simpl.
  - constructor.
  - now apply insert_by_nome_sorted.
Qed.

(** ** Writes by key *)

Section ByKey.

Context {Row : Type} (key : Row -> Z).

(** A DELETE by key leaves no row with that key. *)
Lemma delete_by_key_absent (id : Z) (l : list Row) (x : Row) :
  In x (filter (fun r => negb (Z.eqb (key r) id)) l) -> key x <> id.
Proof.
  intros H. apply filter_In in H as [_ H].
  apply negb_true_iff, Z.eqb_neq in H. exact H.
Qed.

(** A key that no row has is hit by no statement. *)
Lemma count_by_key_absent (id : Z) (l : list Row) :
  (forall x, In x l -> key x <> id) ->
  Sql.count (fun r => Z.eqb (key r) id) l = 0%nat.
Proof.
  unfold Sql.count. induction l as [|x l IH]; intros H; simpl; [reflexivity|].
  destruct (Z.eqb_spec (key x) id) as [E|E].
  - exfalso. apply (H x); simpl; auto.
  - apply IH. intros y Hy. apply H. now right.
Qed.

Lemma count_by_key_present (id : Z) (l : list Row) (x : Row) :
  In x l -> key x = id ->
  Nat.eqb (Sql.count (fun r => Z.eqb (key r) id) l) 0 = false.
Proof.
  unfold Sql.count. induction l as [|y l IH]; intros Hin Hk; [easy|].
  simpl. destruct (Z.eqb_spec (key y) id) as [E|E]; [reflexivity|].
  destruct Hin as [->|Hin]; [contradiction|]. now apply IH.
Qed.

Variable replace : Row -> Row.

(** An UPDATE by key: every row with the key is the replacement of a row
    that had it; the other rows are the old ones. *)
Lemma update_by_key_In (id : Z) (l : list Row) (y : Row) :
  In y (map (fun r => if Z.eqb (key r) id then replace r else r) l)
  <-> (exists x, In x l /\ key x = id /\ y = replace x)
      \/ (In y l /\ key y <> id).
Proof.
  rewrite in_map_iff. split.
  - intros (x & <- & Hx). destruct (Z.eqb_spec (key x) id) as [E|E].
    + left. now exists x.
    + right. now split.
  - intros [(x & Hx & E & ->)|[Hy E]].
    + exists x. split; [|assumption].
      apply Z.eqb_eq in E. now rewrite E.
    + exists y. split; [|assumption].
      apply Z.eqb_neq in E. now rewrite E.
Qed.

End ByKey.

(** ** DELETE by id *)

Ltac unfold_routes :=
  unfold Libsql.get_normas, Libsql.search, Libsql.get_tipos,
    Libsql.get_modalidades,
    Libsql.get_tipos_id_normas, Libsql.post_normas, Libsql.put_normas_id,
    Libsql.delete_normas_id, Libsql.post_tipos, Libsql.put_tipos_id,
    Libsql.delete_tipos_id, Libsql.post_normas_tipos_compensacao,
    Libsql.post_modalidades, Libsql.put_modalidades_id,
    Libsql.delete_modalidades_id,
    Sqlite3.get_normas, Sqlite3.search, Sqlite3.get_tipos,
    Sqlite3.get_modalidades,
    Sqlite3.get_normas_tipos_compensacao_tipo_id, Sqlite3.post_normas,
    Sqlite3.put_normas_id, Sqlite3.delete_normas_id, Sqlite3.post_tipos,
    Sqlite3.put_tipos_id, Sqlite3.delete_tipos_id,
    Sqlite3.post_modalidades, Sqlite3.put_modalidades_id,
    Sqlite3.delete_modalidades_id, answers in *.

(** The shapes of a parameter of the query string: absent, the empty
    string, another string, an array, an object. *)
Ltac case_query :=
  try match goal with
      | q : Query.Param |- _ => destruct q as [[[|? ?]|?|?]|]
      end.

(** C1.  A DELETE of an id that no row has must answer 404.  The libsql
    server does not: on an empty store, deleting norma, type or modality 7
    answers 200 with the message of a successful deletion. *)
Theorem libsql_delete_of_missing_row_answers_200 (js : Js.Engine) :
  Libsql.handle js Store.healthy (Libsql.DELETE_normas_id 7) Store.empty
  = (Answer (respond 200 (Message "Norma deletada com sucesso")),
     Store.empty)
  /\ Libsql.handle js Store.healthy (Libsql.DELETE_tipos_id 7) Store.empty
     = (Answer (respond 200 (Message "Tipo deletado com sucesso")),
        Store.empty)
  /\ Libsql.handle js Store.healthy (Libsql.DELETE_modalidades_id 7)
       Store.empty
     = (Answer (respond 200 (Message "Modalidade deletada com sucesso")),
        Store.empty).
Proof. repeat split. Qed.

(** The libsql server never answers 404, whatever the store holds. *)
Lemma libsql_never_404 js fault (r : Libsql.Request) (db : Tables) :
  status_of (fst (Libsql.handle js fault r db)) <> Some 404.
Proof.
  destruct r; case_query; cbn [Libsql.handle]; unfold_routes;
    cbn [Query.truthy fst status_of]; try discriminate;
    match goal with
    | |- context [Store.execute ?f ?d ?s] =>
        destruct (Store.execute f d s) as [?|[? ?]]
    end; simpl; discriminate.
Qed.

(** The sqlite3 server reads the number of changed rows: an id that no row
    has is answered with 404. *)
Lemma sqlite3_delete_of_missing_row_answers_404 fault (id : Z) (db : Tables) :
  (fault db (Sql.DeleteNorma id) = None ->
   (forall n, In n (normas db) -> Norma.id n <> id) ->
   fst (Sqlite3.delete_normas_id fault id db)
   = respond 404 (Message "Norma não encontrada."))
  /\ (fault db (Sql.DeleteTipo id) = None ->
      (forall t, In t (tipos_compensacao db) -> Tipo.id t <> id) ->
      fst (Sqlite3.delete_tipos_id fault id db)
      = respond 404 (Message "Tipo não encontrado."))
  /\ (fault db (Sql.DeleteModalidade id) = None ->
      (forall m, In m (modalidades db) -> Modalidade.id m <> id) ->
      fst (Sqlite3.delete_modalidades_id fault id db)
      = respond 404 (Message "Modalidade não encontrada.")).
Proof.
  unfold Sqlite3.delete_normas_id, Sqlite3.delete_tipos_id,
    Sqlite3.delete_modalidades_id, Store.execute.
  repeat split; intros Hf Habsent; rewrite Hf; simpl;
    now rewrite count_by_key_absent.
Qed.

(** On both servers a DELETE that the store accepts answers 200 when a row
    has the id, and no type with that id is left to be listed. *)
Lemma delete_tipos_of_present_row fault (id : Z) (db : Tables) (t : Tipo.t) :
  fault db (Sql.DeleteTipo id) = None ->
  In t (tipos_compensacao db) -> Tipo.id t = id ->
  exists db',
    Libsql.delete_tipos_id fault id db
    = (respond 200 (Message "Tipo deletado com sucesso"), db')
    /\ Sqlite3.delete_tipos_id fault id db
       = (respond 200 (Message "Tipo deletado com sucesso"), db')
    /\ forall x, In x (tipos_compensacao db') -> Tipo.id x <> id.
Proof.
  intros Hf Hin Hid.
  unfold Libsql.delete_tipos_id, Sqlite3.delete_tipos_id, Store.execute.
  rewrite Hf. simpl. rewrite (count_by_key_present Tipo.id id _ t Hin Hid).
  eexists. repeat split. simpl. intros x Hx.
  exact (delete_by_key_absent Tipo.id id _ x Hx).
Qed.

(** ** Search of normas *)

Lemma contains_single (c : ascii) (s : string) :
  Spec.contains (String c "") s ->
  existsb (Ascii.eqb c) (list_ascii_of_string s) = true.
Proof.
  intros (a & b & ->). induction a as [|d a IH]; simpl in *.
  - now rewrite Ascii.eqb_refl.
  - rewrite IH. apply orb_true_r.
Qed.

(** C2.  The search must return exactly the normas that contain the term.
    The term is pasted into a LIKE pattern as it is: for the term [_] the
    server returns a norma none of whose fields contains an underscore. *)
Theorem get_normas_reads_term_as_pattern (js : Js.Engine) :
  Libsql.get_normas js Store.healthy (Some (Query.Str "_")) Sample.uma_norma
  = (Answer (respond 200 (Data (Sql.NormaRows [Sample.decreto]))),
     Sample.uma_norma)
  /\ ~ Spec.norma_matches "_" Sample.decreto.
Proof.
  split.
  - unfold Libsql.get_normas. cbn [Query.truthy].
    rewrite (Js.toLowerCase_ascii js "_" eq_refl). reflexivity.
  - intros [H|[H|H]]; destruct H as (s & E & H);
      cbn in E; injection E as <-;
      apply contains_single in H; vm_compute in H; discriminate.
Qed.

(** C9.  An empty [q] is the same request as no [q]: the handler sends the
    unfiltered statement, and the answer (when the store accepts it) is the
    whole table ascending by name. *)
Theorem get_normas_empty_term_is_no_term js fault (db : Tables) :
  Libsql.get_normas js fault (Some (Query.Str "")) db
  = Libsql.get_normas js fault None db
  /\ Sqlite3.get_normas js fault (Some (Query.Str "")) db
     = Sqlite3.get_normas js fault None db
  /\ Libsql.get_normas js fault (Some (Query.Str "")) db
     = match fault db (Sql.SelectNormas None) with
       | Some message => (Answer (respond 400 (Error message)), db)
       | None =>
           (Answer
              (respond 200
                 (Data (Sql.NormaRows (Sql.order_by_nome (normas db))))),
            db)
       end
  /\ Permutation (normas db) (Sql.order_by_nome (normas db))
  /\ Spec.ordered_by_nome (Sql.order_by_nome (normas db)).
Proof.
  repeat split.
  - unfold Libsql.get_normas, Libsql.search, Store.execute. simpl.
    now destruct (fault db (Sql.SelectNormas None)).
  - apply order_by_nome_perm.
  - apply order_by_nome_sorted.
Qed.

(** ** Failures of the store *)

(** C3.  On both servers, for every route that reaches the store: when the
    store call of the route fails with message [m], the answer is 400 with
    body [{error: m}], and the store is as it was. *)
Theorem store_failure_is_400 (s : Server) js fault (r : Route s)
  (db : Tables) (st : Sql.Statement) (m : string) :
  statement s js r = Some st ->
  Store.execute fault db st = inl m ->
  handle s js fault r db = (Answer (respond 400 (Error m)), db).
Proof.
  destruct s; simpl in r |- *; intros Hst H; destruct r; case_query;
    cbn [statement Libsql.statement Sqlite3.statement
         handle Libsql.handle Sqlite3.handle] in *;
    try discriminate Hst; injection Hst as <-;
    unfold_routes; cbn [Query.truthy append] in *; rewrite H; reflexivity.
Qed.

(** A modality that names a type that does not exist is refused by the
    store; the message of the store is the body of the 400. *)
Lemma store_failure_is_400_witness :
  Store.execute Store.foreign_keys Store.empty
    (Sql.InsertModalidade (Modalidade.columns Sample.pagamento))
  = inl "SQLITE_CONSTRAINT: FOREIGN KEY constraint failed"
  /\ handle libsql Js.ascii_engine Store.foreign_keys
       (Libsql.POST_modalidades (Modalidade.columns Sample.pagamento))
       Store.empty
     = (Answer
          (respond 400
             (Error "SQLITE_CONSTRAINT: FOREIGN KEY constraint failed")),
        Store.empty).
Proof.
  split; [reflexivity|].
  apply (store_failure_is_400 libsql Js.ascii_engine Store.foreign_keys
           (Libsql.POST_modalidades (Modalidade.columns Sample.pagamento))
           Store.empty
           (Sql.InsertModalidade (Modalidade.columns Sample.pagamento)));
    reflexivity.
Defined.

(** On the sqlite3 server the UPDATE of a type does not parse: the route
    answers 400 on every store. *)
Remark sqlite3_put_tipos_is_400 fault (id : Z) (nome : text) (db : Tables) :
  Sqlite3.put_tipos_id fault id nome db
  = (respond 400 (Error (Sql.syntax_error "WHERE")), db).
Proof. reflexivity. Qed.

(** ** The proxy routes *)


(** The answer of a proxy route to a body that is no JSON text is the body
    as a JSON string. *)
Lemma proxy_quotes_other_bodies :
  Axios.data "<ServiceExceptionReport/>" = Axios.Raw "<ServiceExceptionReport/>"
  /\ Spec.wire (Relay (Axios.data "<ServiceExceptionReport/>"))
     = Some (Json.double_quote ++ "<ServiceExceptionReport/>"
             ++ Json.double_quote).
Proof. split; reflexivity. Qed.



(** The scenario of the specification: the bounding box reaches the
    upstream as it was typed, and a GeoJSON body comes back as its value. *)
Example proxy_bbox_scenario :
  Sisema.wfsUrl Sisema.TYPENAME_unidades_conservacao
    (Sisema.query (Some (Query.Str "-44,-20,-43,-19")) None)
  = "http://geoserver.meioambiente.mg.gov.br/ows?service=WFS&version=2.0.0&request=GetFeature&typename=ide_2010_mg_unidades_conservacao_estaduais_pol&outputFormat=application/json&bbox=-44,-20,-43,-19"
  /\ Axios.data "{}" = Axios.Parsed "{}".
Proof. split; reflexivity. Qed.

(** A parameter that the caller repeats reaches the handler as an array,
    and is pasted with commas between its values. *)
Example proxy_repeated_bbox :
  Sisema.wfsUrl Sisema.TYPENAME_unidades_conservacao
    (Sisema.query (Some (Query.Arr [Query.Str "1"; Query.Str "2"])) None)
  = "http://geoserver.meioambiente.mg.gov.br/ows?service=WFS&version=2.0.0&request=GetFeature&typename=ide_2010_mg_unidades_conservacao_estaduais_pol&outputFormat=application/json&bbox=1,2".
Proof. reflexivity. Qed.

(** ** PUT by id *)

(** C5.  A PUT that the store accepts answers 200 with the message of
    success whether or not a row has the id; the rows that have the id
    carry the editable fields of the body and nothing of their old
    contents, the other rows are untouched. *)
Theorem put_answers_200_and_replaces fault (id : Z) (db : Tables) :
  (forall b : Libsql.NormaBody,
     fault db (Sql.UpdateNorma (Libsql.nome b) (Libsql.link b)
                               (Libsql.preambulo b) id) = None ->
     exists db',
       Libsql.put_normas_id fault id b db
       = (respond 200 (Message "Norma atualizada com sucesso"), db')
       /\ forall y, In y (normas db') <->
            (exists x, In x (normas db) /\ Norma.id x = id
                       /\ y = Norma.make id (Libsql.nome b) (Libsql.link b)
                                         (Libsql.preambulo b))
            \/ (In y (normas db) /\ Norma.id y <> id))
  /\ (forall nome : text,
        fault db (Sql.UpdateTipo nome id) = None ->
        exists db',
          Libsql.put_tipos_id fault id nome db
          = (respond 200 (Message "Tipo atualizado com sucesso"), db')
          /\ forall y, In y (tipos_compensacao db') <->
               (exists x, In x (tipos_compensacao db) /\ Tipo.id x = id
                          /\ y = Tipo.make id nome)
               \/ (In y (tipos_compensacao db) /\ Tipo.id y <> id))
  /\ (forall p : Modalidade.fields,
        fault db (Sql.UpdateModalidade p id) = None ->
        exists db',
          Libsql.put_modalidades_id fault id p db
          = (respond 200 (Message "Modalidade atualizada com sucesso"), db')
          /\ forall y, In y (modalidades db') <->
               (exists x, In x (modalidades db) /\ Modalidade.id x = id
                          /\ y = Modalidade.make id p)
               \/ (In y (modalidades db) /\ Modalidade.id y <> id)).
Proof.
  unfold Libsql.put_normas_id, Libsql.put_tipos_id, Libsql.put_modalidades_id,
    Store.execute.
  split; [|split]; intros body Hf; rewrite Hf; eexists;
    (split; [reflexivity|]);
    intros y; cbn [normas tipos_compensacao modalidades Sql.set_normas
                   Sql.set_tipos Sql.set_modalidades snd fst Sql.run];
    rewrite update_by_key_In;
    (split; (intros [(x & Hx & E & ->)|Hr]; [left; exists x|right; exact Hr]);
     rewrite ?E; subst; auto).
Qed.

(** On the empty store no row has id 7, and the three routes answer 200. *)
Lemma put_answers_200_and_replaces_witness :
  (exists db',
     Libsql.put_normas_id Store.healthy 7
       (Libsql.norma_body (Some "Lei 20.922/2013") None None) Store.empty
     = (respond 200 (Message "Norma atualizada com sucesso"), db'))
  /\ (exists db',
        Libsql.put_tipos_id Store.healthy 7 (Some "SNUC") Store.empty
        = (respond 200 (Message "Tipo atualizado com sucesso"), db'))
  /\ (exists db',
        Libsql.put_modalidades_id Store.healthy 7
          (Modalidade.columns Sample.reflorestamento) Store.empty
        = (respond 200 (Message "Modalidade atualizada com sucesso"), db')).
Proof.
  destruct (put_answers_200_and_replaces Store.healthy 7 Store.empty)
    as (Hn & Ht & Hm).
  split; [|split].
  - destruct (Hn (Libsql.norma_body (Some "Lei 20.922/2013") None None)
                 eq_refl) as (db' & H & _).
    now exists db'.
  - destruct (Ht (Some "SNUC") eq_refl) as (db' & H & _). now exists db'.
  - destruct (Hm (Modalidade.columns Sample.reflorestamento) eq_refl) as (db' & H & _).
    now exists db'.
Defined.

(** C6.  A norma with the id exists; a PUT of [b] for that id succeeds and
    the listing that follows succeeds.  Then the listing holds a norma with
    that id, and every norma with that id in the listing consists of the id
    and the three fields of [b]. *)
Theorem put_then_get_normas js fault (id : Z) (b : Libsql.NormaBody)
  (db db1 db2 : Tables) (r1 r2 : Response) (n : Norma.t) :
  In n (normas db) -> Norma.id n = id ->
  Libsql.put_normas_id fault id b db = (r1, db1) -> status r1 = 200 ->
  Libsql.get_normas js fault None db1 = (Answer r2, db2) ->
  status r2 = 200 ->
  let written :=
    Norma.make id (Libsql.nome b) (Libsql.link b) (Libsql.preambulo b) in
  exists listing,
    body r2 = Data (Sql.NormaRows listing)
    /\ In written listing
    /\ forall y, In y listing -> Norma.id y = id -> y = written.
Proof.
  intros Hin Hid Hput H1 Hget H2 written.
  unfold Libsql.put_normas_id, Store.execute in Hput.
  destruct (fault db _); [injection Hput as <- <-; discriminate H1|].
  injection Hput as _ <-.
  unfold Libsql.get_normas, Libsql.search, Store.execute in Hget.
  cbn [Query.truthy] in Hget.
  destruct (fault _ _); [injection Hget as <- <-; discriminate H2|].
  injection Hget as <- _.
  eexists. split; [reflexivity|].
  cbn [Sql.run fst snd normas Sql.set_normas].
  split.
  - apply order_by_nome_In, update_by_key_In. left. exists n.
    unfold written. now rewrite Hid.
  - intros y Hy Hk. apply order_by_nome_In, update_by_key_In in Hy.
    destruct Hy as [(x & _ & E & ->)|[_ Hne]]; [|contradiction].
    unfold written. now rewrite E.
Qed.

(** The decree is renamed; the listing shows the new fields only. *)
Lemma put_then_get_normas_witness :
  exists r2 db2 listing,
    Libsql.get_normas Js.ascii_engine Store.healthy None
      (snd (Libsql.put_normas_id Store.healthy 1
              (Libsql.norma_body (Some "Decreto 48.387/2022") None None)
              Sample.associado))
    = (Answer r2, db2)
    /\ body r2 = Data (Sql.NormaRows listing)
    /\ In (Norma.make 1 (Some "Decreto 48.387/2022") None None) listing
    /\ forall y, In y listing -> Norma.id y = 1 ->
                 y = Norma.make 1 (Some "Decreto 48.387/2022") None None.
Proof.
  eexists. eexists.
  destruct (put_then_get_normas Js.ascii_engine Store.healthy 1
              (Libsql.norma_body (Some "Decreto 48.387/2022") None None)
              Sample.associado _ _ _ _ Sample.decreto
              (or_introl eq_refl) eq_refl eq_refl eq_refl eq_refl eq_refl)
    as (listing & H).
  exists listing. split; [reflexivity | exact H].
Defined.

(** ** Normas of a type *)

Lemma join_normas_In (db : Tables) (tipo_id : Z) (n : Norma.t) :
  In n (Sql.join_normas db tipo_id)
  <-> In n (normas db)
      /\ exists ntc, In ntc (normas_tipos_compensacao db)
                     /\ NormaTipo.norma_id ntc = Some (Norma.id n)
                     /\ NormaTipo.tipo_id ntc = Some tipo_id.
Proof.
  unfold Sql.join_normas. rewrite in_flat_map. split.
  - intros (x & Hx & H). apply in_flat_map in H as (ntc & Hntc & H).
    destruct (Sql.fk_eqb (NormaTipo.norma_id ntc) (Norma.id x)) eqn:E1;
      [|contradiction].
    destruct (Sql.fk_eqb (NormaTipo.tipo_id ntc) tipo_id) eqn:E2;
      [|contradiction].
    destruct H as [<-|[]]. split; [assumption|]. exists ntc.
    unfold Sql.fk_eqb in E1, E2.
    destruct (NormaTipo.norma_id ntc), (NormaTipo.tipo_id ntc);
      try discriminate.
    apply Z.eqb_eq in E1, E2. now subst.
  - intros (Hn & ntc & Hntc & E1 & E2). exists n. split; [assumption|].
    apply in_flat_map. exists ntc. split; [assumption|].
    rewrite E1, E2. simpl. rewrite !Z.eqb_refl. now left.
Qed.

(** C7.  When the store accepts the query, the answer is 200 with the
    normas that an association row links to the type, and with those only:
    the empty list when no association row names the type. *)
Theorem get_tipos_id_normas_is_type_scoped fault (id : Z) (db : Tables) :
  fault db (Sql.SelectNormasOfTipo id) = None ->
  exists linked,
    Libsql.get_tipos_id_normas fault id db
    = (respond 200 (Data (Sql.NormaRows linked)), db)
    /\ (forall n, In n linked <->
          In n (normas db)
          /\ exists ntc, In ntc (normas_tipos_compensacao db)
                         /\ NormaTipo.norma_id ntc = Some (Norma.id n)
                         /\ NormaTipo.tipo_id ntc = Some id)
    /\ ((forall ntc, In ntc (normas_tipos_compensacao db) ->
                     NormaTipo.tipo_id ntc <> Some id) ->
        linked = []).
Proof.
  intros Hf. unfold Libsql.get_tipos_id_normas, Store.execute. rewrite Hf.
  eexists. split; [reflexivity|]. split; [apply join_normas_In|].
  intros Hnone. cbn [Sql.run Sql.rows Sql.selected fst].
  destruct (Sql.join_normas db id) as [|n l] eqn:E; [reflexivity|].
  assert (Hin : In n (Sql.join_normas db id)) by (rewrite E; now left).
  apply join_normas_In in Hin as (_ & ntc & Hntc & _ & Ht).
  now destruct (Hnone ntc Hntc).
Qed.

(** The decree is linked to type 1 only: it is listed for type 1, and the
    listing of type 2 is empty although type 2 exists. *)
Lemma get_tipos_id_normas_is_type_scoped_witness :
  (exists linked,
     Libsql.get_tipos_id_normas Store.healthy 1 Sample.associado
     = (respond 200 (Data (Sql.NormaRows linked)), Sample.associado)
     /\ In Sample.decreto linked)
  /\ Libsql.get_tipos_id_normas Store.healthy 2 Sample.associado
     = (respond 200 (Data (Sql.NormaRows [])), Sample.associado).
Proof.
  split.
  - destruct (get_tipos_id_normas_is_type_scoped Store.healthy 1
                Sample.associado eq_refl) as (linked & H & Hiff & _).
    exists linked. split; [exact H|]. apply Hiff. split; [now left|].
    exists (NormaTipo.make (Some 1) (Some 1)). repeat split. now left.
  - destruct (get_tipos_id_normas_is_type_scoped Store.healthy 2
                Sample.associado eq_refl) as (linked & H & _ & Hnone).
    rewrite H. rewrite Hnone; [reflexivity|].
    intros ntc [<-|[]]. discriminate.
Defined.

(** ** Statuses and the store *)

Lemma tables_eta (db : Tables) :
  mkTables (normas db) (tipos_compensacao db) (modalidades db)
           (normas_tipos_compensacao db) = db.
Proof. now destruct db. Qed.

Lemma count_zero_absent {Row : Type} (key : Row -> Z) (id : Z)
  (l : list Row) :
  Sql.count (fun r => Z.eqb (key r) id) l = 0%nat <->
  forall x, In x l -> key x <> id.
Proof.
  split; [|apply count_by_key_absent].
  unfold Sql.count. induction l as [|y l IH]; intros H x Hin; [easy|].
  simpl in H. destruct (Z.eqb_spec (key y) id) as [E|E]; [discriminate|].
  destruct Hin as [<-|Hin]; [exact E|now apply IH].
Qed.

Lemma filter_by_key_absent {Row : Type} (key : Row -> Z) (id : Z)
  (l : list Row) :
  (forall x, In x l -> key x <> id) ->
  filter (fun r => negb (Z.eqb (key r) id)) l = l.
Proof.
  induction l as [|y l IH]; intros H; [reflexivity|]. simpl.
  destruct (Z.eqb_spec (key y) id) as [E|E].
  - exfalso. apply (H y); simpl; auto.
  - simpl. f_equal. apply IH. intros x Hx. apply H. now right.
Qed.

Lemma delete_nothing {Row : Type} (key : Row -> Z) (id : Z) (l : list Row) :
  Nat.eqb (Sql.count (fun r => Z.eqb (key r) id) l) 0 = true ->
  filter (fun r => negb (Z.eqb (key r) id)) l = l.
Proof.
  intros H. apply Nat.eqb_eq in H.
  now apply filter_by_key_absent, count_zero_absent.
Qed.

(** The reply of every store route of both servers.  The search of normas
    with a term that is an array or an object throws before it reaches the
    store.  Every other request is answered: with 400 when the store call
    fails; otherwise with 201 for a POST, 200 for a GET, a PUT and a libsql
    DELETE, and for a sqlite3 DELETE 404 when no row changed and 200 when
    one did. *)
Theorem status_by_method (s : Server) js fault (r : Route s) (db : Tables) :
  match statement s js r with
  | None => handle s js fault r db = (Throws Libsql.not_a_function, db)
  | Some st =>
      exists answer,
        fst (handle s js fault r db) = Answer answer
        /\ status answer
           = match Store.execute fault db st with
             | inl _ => 400
             | inr (result, _) =>
                 Http.success_status s (Http.method s r) (Sql.changes result)
             end
  end.
Proof.
  destruct s; simpl in r |- *; destruct r; case_query;
    cbn [statement Libsql.statement Sqlite3.statement
         handle Libsql.handle Sqlite3.handle
         Http.method Http.libsql_method Http.sqlite3_method
         Http.success_status];
    unfold_routes; cbn [Query.truthy append]; try reflexivity;
    match goal with
    | |- context [Store.execute ?f ?d ?st] =>
        destruct (Store.execute f d st) as [?|[? ?]]
    end;
    cbn [fst snd];
    try (eexists; split; reflexivity);
    match goal with
    | |- context [Nat.eqb ?n 0] => destruct (Nat.eqb n 0)
    end; eexists; split; reflexivity.
Qed.

(** A route changes the store only when it answers 200 or 201 to a POST, a
    PUT or a DELETE: after a GET, after a 400 and after a 404 the store is
    as it was. *)
Theorem store_changes_only_on_successful_write (s : Server) js fault
  (r : Route s) (db : Tables) :
  Http.method s r = Http.GET
  \/ status_of (fst (handle s js fault r db)) = Some 400
  \/ status_of (fst (handle s js fault r db)) = Some 404 ->
  snd (handle s js fault r db) = db.
Proof.
  destruct s; simpl in r |- *; destruct r; case_query;
    cbn [handle Libsql.handle Sqlite3.handle
         Http.method Http.libsql_method Http.sqlite3_method];
    unfold_routes; unfold Store.execute; cbn [Query.truthy];
    try match goal with
        | |- context [fault db ?st] =>
            destruct (fault db st); [intros _; reflexivity|]
        end;
    try (intros _; reflexivity);
    cbn [Sql.run fst snd Sql.changes Sql.written];
    try match goal with
        | |- context [Nat.eqb ?n 0] => destruct (Nat.eqb n 0) eqn:Hc
        end;
    cbn [fst snd status status_of];
    intros [H|[H|H]]; try discriminate H;
    unfold Sql.set_normas, Sql.set_tipos, Sql.set_modalidades;
    rewrite delete_nothing by exact Hc; apply tables_eta.
Qed.

(** A listing never touches the store. *)
Lemma store_changes_only_on_successful_write_witness :
  snd (handle libsql Js.ascii_engine Store.healthy
         (Libsql.GET_tipos_id_normas 1) Sample.associado) = Sample.associado
  /\ snd (handle sqlite3 Js.ascii_engine Store.healthy
            (Sqlite3.DELETE_tipos_id 7) Sample.associado) = Sample.associado.
Proof.
  split.
  - apply (store_changes_only_on_successful_write libsql Js.ascii_engine
             Store.healthy (Libsql.GET_tipos_id_normas 1)). now left.
  - apply (store_changes_only_on_successful_write sqlite3 Js.ascii_engine
             Store.healthy (Sqlite3.DELETE_tipos_id 7)).
    right. right. reflexivity.
Defined.

(** ** DELETE and PUT, row by row *)

Lemma count_pos_present {Row : Type} (key : Row -> Z) (id : Z)
  (l : list Row) :
  Nat.eqb (Sql.count (fun r => Z.eqb (key r) id) l) 0 = false <->
  exists x, In x l /\ key x = id.
Proof.
  split.
  - unfold Sql.count. induction l as [|y l IH]; intros H; [discriminate|].
    simpl in H. destruct (Z.eqb_spec (key y) id) as [E|E].
    + exists y. simpl; auto.
    + destruct (IH H) as (x & Hx & Ex). exists x. simpl; auto.
  - intros (x & Hx & Ex). now apply (count_by_key_present key id l x).
Qed.

Lemma delete_by_key_In {Row : Type} (key : Row -> Z) (id : Z) (l : list Row)
  (x : Row) :
  In x (filter (fun r => negb (Z.eqb (key r) id)) l)
  <-> In x l /\ key x <> id.
Proof.
  rewrite filter_In, negb_true_iff, Z.eqb_neq. tauto.
Qed.

Ltac settle_delete Hf :=
  rewrite Hf; cbn [Sql.run fst snd Sql.changes Sql.written];
  match goal with
  | |- context [Nat.eqb ?n 0] => destruct (Nat.eqb n 0) eqn:Hc
  end;
  cbn [fst snd normas tipos_compensacao modalidades
       Sql.set_normas Sql.set_tipos Sql.set_modalidades];
  (split; [|split; [|intros x; apply delete_by_key_In]]);
  [ split; [intros _; now apply count_zero_absent, Nat.eqb_eq
           |reflexivity]
  | split; [discriminate|];
    intros Hex; apply count_pos_present in Hex; congruence
  | split; [discriminate|];
    intros Habs; apply count_zero_absent, Nat.eqb_eq in Habs; congruence
  | split; [intros _; now apply count_pos_present|reflexivity] ].

(** On the sqlite3 server a DELETE that the store accepts answers 404 with
    the not-found message exactly when no row has the id, and 200 exactly
    when one has; afterwards the table holds the rows it held whose id is
    another one. *)
Theorem sqlite3_delete_404_iff_missing fault (id : Z) (db : Tables) :
  (fault db (Sql.DeleteNorma id) = None ->
   let answer := Sqlite3.delete_normas_id fault id db in
   (fst answer = respond 404 (Message "Norma não encontrada.")
    <-> forall n, In n (normas db) -> Norma.id n <> id)
   /\ (fst answer = respond 200 (Message "Norma deletada com sucesso")
       <-> exists n, In n (normas db) /\ Norma.id n = id)
   /\ forall n, In n (normas (snd answer))
                <-> In n (normas db) /\ Norma.id n <> id)
  /\ (fault db (Sql.DeleteTipo id) = None ->
      let answer := Sqlite3.delete_tipos_id fault id db in
      (fst answer = respond 404 (Message "Tipo não encontrado.")
       <-> forall t, In t (tipos_compensacao db) -> Tipo.id t <> id)
      /\ (fst answer = respond 200 (Message "Tipo deletado com sucesso")
          <-> exists t, In t (tipos_compensacao db) /\ Tipo.id t = id)
      /\ forall t, In t (tipos_compensacao (snd answer))
                   <-> In t (tipos_compensacao db) /\ Tipo.id t <> id)
  /\ (fault db (Sql.DeleteModalidade id) = None ->
      let answer := Sqlite3.delete_modalidades_id fault id db in
      (fst answer = respond 404 (Message "Modalidade não encontrada.")
       <-> forall m, In m (modalidades db) -> Modalidade.id m <> id)
      /\ (fst answer = respond 200 (Message "Modalidade deletada com sucesso")
          <-> exists m, In m (modalidades db) /\ Modalidade.id m = id)
      /\ forall m, In m (modalidades (snd answer))
                   <-> In m (modalidades db) /\ Modalidade.id m <> id).
Proof.
  unfold Sqlite3.delete_normas_id, Sqlite3.delete_tipos_id,
    Sqlite3.delete_modalidades_id, Store.execute.
  split; [|split]; intros Hf; cbv zeta; settle_delete Hf.
Qed.

(** Type 1 exists and type 7 does not. *)
Lemma sqlite3_delete_404_iff_missing_witness :
  fst (Sqlite3.delete_tipos_id Store.healthy 7 Sample.associado)
  = respond 404 (Message "Tipo não encontrado.")
  /\ fst (Sqlite3.delete_tipos_id Store.healthy 1 Sample.associado)
     = respond 200 (Message "Tipo deletado com sucesso").
Proof.
  split.
  - destruct (sqlite3_delete_404_iff_missing Store.healthy 7 Sample.associado)
      as (_ & H & _).
    apply (H eq_refl). simpl. intuition (subst; discriminate).
  - destruct (sqlite3_delete_404_iff_missing Store.healthy 1 Sample.associado)
      as (_ & H & _).
    apply (H eq_refl). exists Sample.snuc. simpl. auto.
Defined.

(** On the libsql server a DELETE of an id that no row has, accepted by the
    store, answers 200 with the message of a deletion and leaves the store
    as it was. *)
Theorem libsql_delete_of_absent_id fault (id : Z) (db : Tables) :
  (fault db (Sql.DeleteNorma id) = None ->
   (forall n, In n (normas db) -> Norma.id n <> id) ->
   Libsql.delete_normas_id fault id db
   = (respond 200 (Message "Norma deletada com sucesso"), db))
  /\ (fault db (Sql.DeleteTipo id) = None ->
      (forall t, In t (tipos_compensacao db) -> Tipo.id t <> id) ->
      Libsql.delete_tipos_id fault id db
      = (respond 200 (Message "Tipo deletado com sucesso"), db))
  /\ (fault db (Sql.DeleteModalidade id) = None ->
      (forall m, In m (modalidades db) -> Modalidade.id m <> id) ->
      Libsql.delete_modalidades_id fault id db
      = (respond 200 (Message "Modalidade deletada com sucesso"), db)).
Proof.
  unfold Libsql.delete_normas_id, Libsql.delete_tipos_id,
    Libsql.delete_modalidades_id, Store.execute.
  split; [|split]; intros Hf Habs; rewrite Hf;
    cbn [Sql.run fst snd];
    unfold Sql.set_normas, Sql.set_tipos, Sql.set_modalidades;
    rewrite filter_by_key_absent by exact Habs;
    now rewrite tables_eta.
Qed.

(** No modality of the sample store has id 7. *)
Lemma libsql_delete_of_absent_id_witness :
  Libsql.delete_modalidades_id Store.healthy 7 Sample.associado
  = (respond 200 (Message "Modalidade deletada com sucesso"),
     Sample.associado).
Proof.
  destruct (libsql_delete_of_absent_id Store.healthy 7 Sample.associado)
    as (_ & _ & H).
  apply H; [reflexivity|]. simpl. intuition (subst; discriminate).
Defined.

(** On the sqlite3 server, the DELETE that was answered with 200, sent
    again and accepted by the store, is answered with 404. *)
Theorem sqlite3_delete_twice js fault (r : Sqlite3.Request) (db : Tables)
  (st : Sql.Statement) :
  Http.sqlite3_method r = Http.DELETE ->
  Sqlite3.statement js r = Some st ->
  status_of (fst (Sqlite3.handle js fault r db)) = Some 200 ->
  fault (snd (Sqlite3.handle js fault r db)) st = None ->
  status_of
    (fst (Sqlite3.handle js fault r (snd (Sqlite3.handle js fault r db))))
  = Some 404.
Proof.
  destruct r; try discriminate; intros _ Hst;
    cbn [Sqlite3.statement] in Hst; injection Hst as <-;
    cbn [Sqlite3.handle]; unfold_routes;
    unfold Store.execute;
    (destruct (fault db _); [discriminate|]);
    cbn [Sql.run fst snd Sql.changes Sql.written];
    match goal with
    | |- context [Nat.eqb (Sql.count ?f ?l) 0] =>
        destruct (Nat.eqb (Sql.count f l) 0); [discriminate|]
    end;
    cbn [fst snd]; intros _ Hf; rewrite Hf;
    cbn [Sql.run fst snd Sql.changes Sql.written normas tipos_compensacao
         modalidades Sql.set_normas Sql.set_tipos Sql.set_modalidades];
    (rewrite count_by_key_absent;
     [reflexivity|intros x Hx; apply delete_by_key_In in Hx; tauto]).
Qed.

(** The decree is deleted once. *)
Lemma sqlite3_delete_twice_witness :
  status_of
    (fst (Sqlite3.handle Js.ascii_engine Store.healthy
            (Sqlite3.DELETE_normas_id 1)
            (snd (Sqlite3.handle Js.ascii_engine Store.healthy
                    (Sqlite3.DELETE_normas_id 1) Sample.associado))))
  = Some 404.
Proof.
  apply (sqlite3_delete_twice Js.ascii_engine Store.healthy
           (Sqlite3.DELETE_normas_id 1) Sample.associado
           (Sql.DeleteNorma 1)); reflexivity.
Defined.

Lemma update_by_key_keys {Row : Type} (key : Row -> Z)
  (replace : Row -> Row) (id : Z) (l : list Row) :
  (forall r, key (replace r) = key r) ->
  map key (map (fun r => if Z.eqb (key r) id then replace r else r) l)
  = map key l.
Proof.
  intros Hk. rewrite map_map. apply map_ext. intros r.
  destruct (Z.eqb (key r) id); [apply Hk|reflexivity].
Qed.

Lemma update_by_key_idem {Row : Type} (key : Row -> Z)
  (replace : Row -> Row) (id : Z) (l : list Row) :
  (forall r, key (replace r) = key r) ->
  (forall r, replace (replace r) = replace r) ->
  let update := map (fun r => if Z.eqb (key r) id then replace r else r) in
  update (update l) = update l.
Proof.
  intros Hk Hr. cbv zeta. rewrite map_map. apply map_ext. intros r.
  destruct (Z.eqb (key r) id) eqn:E.
  - now rewrite Hk, E, Hr.
  - now rewrite E.
Qed.

(** A PUT that is answered with 200 neither adds nor removes a row and
    changes no key; the same PUT, sent again and answered with 200, leaves
    the store as the first one left it. *)
Theorem put_keeps_keys_and_is_idempotent (s : Server) js fault
  (r : Route s) (db : Tables) :
  Http.method s r = Http.PUT ->
  status_of (fst (handle s js fault r db)) = Some 200 ->
  let db1 := snd (handle s js fault r db) in
  Http.keys db1 = Http.keys db
  /\ (status_of (fst (handle s js fault r db1)) = Some 200 ->
      snd (handle s js fault r db1) = db1).
Proof.
  destruct s; simpl in r |- *; destruct r; try discriminate; intros _;
    cbn [handle Libsql.handle Sqlite3.handle]; unfold_routes;
    unfold Store.execute;
    try (destruct (fault db _); [discriminate|]);
    try discriminate;
    cbn [Sql.run fst snd]; intros _; cbv zeta; unfold Http.keys;
    (split;
     [ cbn [normas tipos_compensacao modalidades normas_tipos_compensacao
            Sql.set_normas Sql.set_tipos Sql.set_modalidades];
       now rewrite update_by_key_keys
     | match goal with
       | |- context [fault ?d ?st] => destruct (fault d st); [discriminate|]
       end;
       intros _; cbn [Sql.run fst snd];
       unfold Sql.set_normas, Sql.set_tipos, Sql.set_modalidades;
       cbn [normas tipos_compensacao modalidades normas_tipos_compensacao];
       f_equal;
       first
         [ apply (update_by_key_idem Norma.id
                    (fun n => Norma.make (Norma.id n) _ _ _))
         | apply (update_by_key_idem Tipo.id
                    (fun t => Tipo.make (Tipo.id t) _))
         | apply (update_by_key_idem Modalidade.id
                    (fun m => Modalidade.make (Modalidade.id m) _)) ];
       reflexivity ]).
Qed.

(** The decree is renamed twice. *)
Lemma put_keeps_keys_and_is_idempotent_witness :
  let r := Libsql.PUT_normas_id 1
             (Libsql.norma_body (Some "Decreto 48.387/2022") None None) in
  let db1 :=
    snd (handle libsql Js.ascii_engine Store.healthy r Sample.associado) in
  Http.keys db1 = Http.keys Sample.associado
  /\ snd (handle libsql Js.ascii_engine Store.healthy r db1) = db1.
Proof.
  intros r db1.
  destruct (put_keeps_keys_and_is_idempotent libsql Js.ascii_engine
              Store.healthy r
              Sample.associado eq_refl eq_refl) as [H1 H2].
  split; [exact H1|]. apply H2. reflexivity.
Defined.

(** ** POST and the listings *)

Lemma next_id_above (ids : list Z) (k : Z) :
  In k ids -> k < Sql.next_id ids.
Proof.
  unfold Sql.next_id. induction ids as [|x ids IH]; intros Hin; [easy|].
  simpl. destruct Hin as [->|Hin]; [lia|]. specialize (IH Hin). lia.
Qed.

Lemma next_id_fresh (ids : list Z) : ~ In (Sql.next_id ids) ids.
Proof. intros H. apply next_id_above in H. lia. Qed.

(** A POST of a norma that is answered with 201, followed by a listing that
    is answered with 200: the listing is a rearrangement, ascending by
    name, of the normas that were there and one more norma, which carries
    the three fields of the body under a key that no norma had. *)
Theorem post_normas_then_get_normas js fault (b : Libsql.NormaBody)
  (db : Tables) :
  status (fst (Libsql.post_normas fault b db)) = 201 ->
  let db1 := snd (Libsql.post_normas fault b db) in
  status_of (fst (Libsql.get_normas js fault None db1)) = Some 200 ->
  exists k listing,
    fst (Libsql.get_normas js fault None db1)
    = Answer (respond 200 (Data (Sql.NormaRows listing)))
    /\ Permutation listing
         (Norma.make k (Libsql.nome b) (Libsql.link b) (Libsql.preambulo b)
          :: normas db)
    /\ Spec.ordered_by_nome listing
    /\ ~ In k (map Norma.id (normas db)).
Proof.
  unfold Libsql.post_normas, Libsql.get_normas, Libsql.search, Store.execute.
  cbn [Query.truthy].
  destruct (fault db _); [discriminate|]. intros _.
  cbn [Sql.run fst snd]. cbv zeta.
  destruct (fault _ _); [discriminate|]. intros _.
  cbn [Sql.run fst snd body Sql.rows Sql.selected normas Sql.set_normas].
  eexists. eexists. split; [reflexivity|].
  split; [|split].
  - rewrite <- order_by_nome_perm. symmetry. apply Permutation_cons_append.
  - apply order_by_nome_sorted.
  - apply next_id_fresh.
Qed.

(** A law is added to the sample store. *)
Lemma post_normas_then_get_normas_witness :
  exists k listing,
    fst (Libsql.get_normas Js.ascii_engine Store.healthy None
           (snd (Libsql.post_normas Store.healthy
                   (Libsql.norma_body (Some "Lei 14.309/2002") None None)
                   Sample.associado)))
    = Answer (respond 200 (Data (Sql.NormaRows listing)))
    /\ Permutation listing
         (Norma.make k (Some "Lei 14.309/2002") None None
          :: normas Sample.associado)
    /\ Spec.ordered_by_nome listing
    /\ ~ In k (map Norma.id (normas Sample.associado)).
Proof.
  exact (post_normas_then_get_normas Js.ascii_engine Store.healthy
           (Libsql.norma_body (Some "Lei 14.309/2002") None None)
           Sample.associado eq_refl eq_refl).
Defined.

(** A POST of a type that the store accepts is answered with 201 and the
    key of the new type (beside the message on the libsql server, alone on
    the sqlite3 server).  No type had that key; the table is the old one
    followed by the new type, so exactly one listed type has the key when
    the old keys were distinct from it, and the listing that follows shows
    the table. *)
Theorem post_tipos_answers_key_of_new_type fault (nome : text) (db : Tables) :
  fault db (Sql.InsertTipo nome) = None ->
  exists k db1,
    Libsql.post_tipos fault nome db
    = (respond 201 (MessageId "Tipo de compensação criado com sucesso" k), db1)
    /\ Sqlite3.post_tipos fault nome db = (respond 201 (Id k), db1)
    /\ ~ In k (map Tipo.id (tipos_compensacao db))
    /\ tipos_compensacao db1
       = (tipos_compensacao db ++ [Tipo.make k nome])%list
    /\ Sql.count (fun t => Z.eqb (Tipo.id t) k) (tipos_compensacao db1) = 1%nat
    /\ (fault db1 Sql.SelectTipos = None ->
        Libsql.get_tipos fault db1
        = (respond 200
             (Data (Sql.TipoRows
                      (tipos_compensacao db ++ [Tipo.make k nome])%list)),
           db1)).
Proof.
  intros Hf. unfold Libsql.post_tipos, Sqlite3.post_tipos, Store.execute.
  rewrite Hf. cbn [Sql.run fst snd Sql.lastInsertRowid Sql.written].
  eexists. eexists. split; [reflexivity|]. split; [reflexivity|].
  split; [apply next_id_fresh|]. split; [reflexivity|]. split.
  - cbn [tipos_compensacao Sql.set_tipos]. unfold Sql.count.
    rewrite filter_app, length_app.
    fold (Sql.count (fun t => Z.eqb (Tipo.id t)
                                (Sql.next_id (map Tipo.id (tipos_compensacao db))))
                    (tipos_compensacao db)).
    rewrite count_by_key_absent.
    + simpl. now rewrite Z.eqb_refl.
    + intros x Hx E. apply (next_id_fresh (map Tipo.id (tipos_compensacao db))).
      rewrite <- E. now apply in_map.
  - intros Hf1. unfold Libsql.get_tipos, Store.execute. now rewrite Hf1.
Qed.

(** A third type is added to the sample store. *)
Lemma post_tipos_answers_key_of_new_type_witness :
  exists k db1,
    Libsql.post_tipos Store.healthy (Some "Mata Atlântica") Sample.associado
    = (respond 201 (MessageId "Tipo de compensação criado com sucesso" k), db1)
    /\ ~ In k (map Tipo.id (tipos_compensacao Sample.associado)).
Proof.
  destruct (post_tipos_answers_key_of_new_type Store.healthy
              (Some "Mata Atlântica") Sample.associado eq_refl)
    as (k & db1 & H1 & _ & H3 & _).
  now exists k, db1.
Defined.

Lemma length_flat_map_app {A B : Type} (f g : A -> list B) (l : list A) :
  List.length (flat_map (fun x => (f x ++ g x)%list) l)
  = (List.length (flat_map f l) + List.length (flat_map g l))%nat.
Proof.
  induction l as [|x l IH]; [reflexivity|].
  simpl. rewrite !length_app, IH. lia.
Qed.

Lemma length_flat_map_if {A : Type} (f : A -> bool) (l : list A) :
  List.length (flat_map (fun x => if f x then [x] else []) l)
  = Sql.count f l.
Proof.
  unfold Sql.count. induction l as [|x l IH]; [reflexivity|].
  simpl. destruct (f x); simpl; now rewrite IH.
Qed.

(** The association route checks nothing: when the store accepts the new
    row, the listing of the type grows by one entry for every norma that
    has the associated id (also when the same link was there already), and
    the listing of every other type is as before. *)
Theorem association_adds_to_listing_of_its_type fault (tipo_id norma_id : Z)
  (db : Tables) :
  fault db (Sql.InsertNormaTipo (Some tipo_id) (Some norma_id)) = None ->
  exists db1,
    Libsql.post_normas_tipos_compensacao fault (Some tipo_id) (Some norma_id) db
    = (respond 201 (Message "Associação criada com sucesso"), db1)
    /\ List.length (Sql.join_normas db1 tipo_id)
       = (List.length (Sql.join_normas db tipo_id)
          + Sql.count (fun n => Z.eqb (Norma.id n) norma_id) (normas db))%nat
    /\ (forall other, other <> tipo_id ->
          Sql.join_normas db1 other = Sql.join_normas db other)
    /\ (forall other,
          fault db1 (Sql.SelectNormasOfTipo other) = None ->
          Libsql.get_tipos_id_normas fault other db1
          = (respond 200 (Data (Sql.NormaRows (Sql.join_normas db1 other))),
             db1)).
Proof.
  intros Hf. unfold Libsql.post_normas_tipos_compensacao, Store.execute.
  rewrite Hf. cbn [Sql.run fst snd]. eexists. split; [reflexivity|].
  unfold Sql.join_normas.
  cbn [normas normas_tipos_compensacao Sql.set_normas_tipos].
  split; [|split].
  - rewrite <- length_flat_map_if, <- length_flat_map_app.
    f_equal. apply flat_map_ext. intros n.
    rewrite flat_map_app. f_equal. simpl.
    rewrite Z.eqb_refl, andb_true_r, Z.eqb_sym.
    now destruct (Z.eqb (Norma.id n) norma_id).
  - intros other Hne. apply flat_map_ext. intros n.
    rewrite flat_map_app. simpl.
    apply Z.eqb_neq in Hne. rewrite Z.eqb_sym in Hne.
    rewrite Hne, andb_false_r. now rewrite app_nil_r.
  - intros other Hf1. unfold Libsql.get_tipos_id_normas, Store.execute.
    now rewrite Hf1.
Qed.

(** The decree is linked to type 1 a second time: it is listed twice. *)
Lemma association_adds_to_listing_of_its_type_witness :
  exists db1,
    Libsql.post_normas_tipos_compensacao Store.healthy (Some 1) (Some 1)
      Sample.associado
    = (respond 201 (Message "Associação criada com sucesso"), db1)
    /\ List.length (Sql.join_normas db1 1) = 2%nat.
Proof.
  destruct (association_adds_to_listing_of_its_type Store.healthy 1 1
              Sample.associado eq_refl) as (db1 & H1 & H2 & _).
  exists db1. split; [exact H1|]. rewrite H2. reflexivity.
Defined.

(** ** More on the search and on the proxy *)



Lemma lower_upper_char (c : ascii) :
  Js.lower_char (Js.upper_char c) = Js.lower_char c.
Proof. destruct c as [[] [] [] [] [] [] [] []]; reflexivity. Qed.

Lemma ascii_lower_upper (s : string) :
  Js.ascii_lower (Js.ascii_upper s) = Js.ascii_lower s.
Proof. induction s; simpl; [|rewrite lower_upper_char]; congruence. Qed.

Lemma get_normas_same_lower js fault (q q' : string) (db : Tables) :
  Js.toLowerCase js q' = Js.toLowerCase js q ->
  (q' = "" <-> q = "") ->
  Libsql.get_normas js fault (Some (Query.Str q')) db
  = Libsql.get_normas js fault (Some (Query.Str q)) db
  /\ Sqlite3.get_normas js fault (Some (Query.Str q')) db
     = Sqlite3.get_normas js fault (Some (Query.Str q)) db.
Proof.
  intros H He. unfold Libsql.get_normas, Sqlite3.get_normas.
  destruct q as [|c q], q' as [|c' q']; cbn [Query.truthy].
  - split; reflexivity.
  - discriminate (proj2 He eq_refl).
  - discriminate (proj1 He eq_refl).
  - now rewrite H.
Qed.

(** The case of an ASCII search term does not matter: on both servers the
    term, the term in upper case and the term in lower case get the same
    answer. *)
Theorem search_ignores_case_of_term js fault (q : string) (db : Tables) :
  Js.is_ascii q = true ->
  Libsql.get_normas js fault (Some (Query.Str (Js.toUpperCase js q))) db
  = Libsql.get_normas js fault (Some (Query.Str q)) db
  /\ Libsql.get_normas js fault (Some (Query.Str (Js.toLowerCase js q))) db
     = Libsql.get_normas js fault (Some (Query.Str q)) db
  /\ Sqlite3.get_normas js fault (Some (Query.Str (Js.toUpperCase js q))) db
     = Sqlite3.get_normas js fault (Some (Query.Str q)) db
  /\ Sqlite3.get_normas js fault (Some (Query.Str (Js.toLowerCase js q))) db
     = Sqlite3.get_normas js fault (Some (Query.Str q)) db.
Proof.
  intros Ha.
  rewrite (Js.toUpperCase_ascii js q Ha), (Js.toLowerCase_ascii js q Ha).
  assert (Hu : Js.toLowerCase js (Js.ascii_upper q) = Js.toLowerCase js q).
  { rewrite (Js.toLowerCase_ascii js q Ha).
    rewrite Js.toLowerCase_ascii by now rewrite is_ascii_upper.
    apply ascii_lower_upper. }
  assert (Hl : Js.toLowerCase js (Js.ascii_lower q) = Js.toLowerCase js q).
  { rewrite (Js.toLowerCase_ascii js q Ha).
    rewrite Js.toLowerCase_ascii by now rewrite is_ascii_lower.
    apply ascii_lower_idem. }
  destruct (get_normas_same_lower js fault q (Js.ascii_upper q) db Hu)
    as [H1 H2]; [destruct q; simpl; split; congruence|].
  destruct (get_normas_same_lower js fault q (Js.ascii_lower q) db Hl)
    as [H3 H4]; [destruct q; simpl; split; congruence|].
  repeat split; assumption.
Qed.

(** The terms [DECRETO] and [decreto] are answered as [Decreto] is. *)
Lemma search_ignores_case_of_term_witness :
  Libsql.get_normas Js.ascii_engine Store.healthy
    (Some (Query.Str "DECRETO")) Sample.associado
  = Libsql.get_normas Js.ascii_engine Store.healthy
      (Some (Query.Str "Decreto")) Sample.associado
  /\ Sqlite3.get_normas Js.ascii_engine Store.healthy
       (Some (Query.Str "decreto")) Sample.associado
     = Sqlite3.get_normas Js.ascii_engine Store.healthy
         (Some (Query.Str "Decreto")) Sample.associado.
Proof.
  destruct (search_ignores_case_of_term Js.ascii_engine Store.healthy
              "Decreto" Sample.associado eq_refl) as (H1 & _ & _ & H4).
  split; [exact H1 | exact H4].
Defined.

(** Whatever the term, wild cards included: a search that reaches the store
    and that the store accepts is answered with 200 and normas of the table,
    ascending by name, and the store is untouched.  A norma whose name, link
    and preamble are all NULL is found by no term, although the listing
    without a term shows it. *)
Theorem search_answers_part_of_table js fault (q : Query.Param)
  (db : Tables) (st : Sql.Statement) :
  Libsql.statement js (Libsql.GET_normas q) = Some st ->
  fault db st = None ->
  exists found,
    Libsql.get_normas js fault q db
    = (Answer (respond 200 (Data (Sql.NormaRows found))), db)
    /\ (forall n, In n found -> In n (normas db))
    /\ Spec.ordered_by_nome found
    /\ (Query.truthy q = true ->
        forall n, In n found ->
          Norma.nome n <> None \/ Norma.link n <> None
          \/ Norma.preambulo n <> None)
    /\ (Query.truthy q = false -> forall n, In n (normas db) -> In n found).
Proof.
  intros Hst Hf. unfold Libsql.get_normas, Libsql.search, Store.execute.
  destruct q as [[[|c q]|?|?]|]; cbn [Libsql.statement] in Hst;
    try discriminate Hst; injection Hst as <-; cbn [Query.truthy];
    cbn [append] in *; rewrite Hf;
    cbn [Sql.run fst snd Sql.rows Sql.selected]; eexists;
    (split; [reflexivity|]).
  - split; [intros n Hn; now rewrite order_by_nome_In in Hn|].
    split; [apply order_by_nome_sorted|].
    split; [discriminate|]. intros _ n Hn. now rewrite order_by_nome_In.
  - split; [intros n Hn; rewrite order_by_nome_In, filter_In in Hn; tauto|].
    split; [apply order_by_nome_sorted|].
    split; [|discriminate].
    intros _ n Hn. rewrite order_by_nome_In, filter_In in Hn.
    destruct Hn as [_ Hn].
    unfold Sql.where_norma in Hn.
    destruct (Norma.nome n); [left; discriminate|].
    destruct (Norma.link n); [right; left; discriminate|].
    destruct (Norma.preambulo n); [right; right; discriminate|].
    discriminate Hn.
  - split; [intros n Hn; now rewrite order_by_nome_In in Hn|].
    split; [apply order_by_nome_sorted|].
    split; [discriminate|]. intros _ n Hn. now rewrite order_by_nome_In.
Qed.

(** The law of the sample store has neither link nor preamble; a search for
    [lei] still finds it by its name, and nothing outside the table. *)
Lemma search_answers_part_of_table_witness :
  exists found,
    Libsql.get_normas Js.ascii_engine Store.healthy (Some (Query.Str "lei"))
      Sample.associado
    = (Answer (respond 200 (Data (Sql.NormaRows found))), Sample.associado)
    /\ forall n, In n found -> In n (normas Sample.associado).
Proof.
  destruct (search_answers_part_of_table Js.ascii_engine Store.healthy
              (Some (Query.Str "lei")) Sample.associado _ eq_refl eq_refl)
    as (found & H1 & H2 & _).
  now exists found.
Defined.

(** The proxy pastes the two parameters one after the other: a bounding box
    that ends in the text of a filter parameter and a request with both
    parameters reach the upstream as the same URL, and both routes answer
    them alike. *)
Theorem proxy_parameters_run_together
  (axios_get : string -> string + string) (b c : string) :
  b <> "" -> c <> "" ->
  let smuggled :=
    Sisema.query (Some (Query.Str (b ++ "&cql_filter=" ++ c))) None in
  let separate := Sisema.query (Some (Query.Str b)) (Some (Query.Str c)) in
  Sisema.get_unidades_conservacao axios_get smuggled
  = Sisema.get_unidades_conservacao axios_get separate
  /\ Sisema.get_imoveis_compensacao axios_get smuggled
     = Sisema.get_imoveis_compensacao axios_get separate.
Proof.
  intros Hb Hc smuggled separate.
  assert (H : forall typename,
             Sisema.wfsUrl typename smuggled = Sisema.wfsUrl typename separate).
  { intros typename. unfold Sisema.wfsUrl, Sisema.pasted, smuggled, separate.
    destruct b as [|b0 b]; [contradiction|].
    destruct c as [|c0 c]; [contradiction|].
    cbn [Sisema.bbox Sisema.cql_filter Query.truthy Query.toString append].
    now rewrite !append_assoc. }
  unfold Sisema.get_unidades_conservacao, Sisema.get_imoveis_compensacao.
  now rewrite !H.
Qed.

(** A bounding box that carries a filter. *)
Lemma proxy_parameters_run_together_witness :
  Sisema.get_unidades_conservacao (fun _ => inr "{}")
    (Sisema.query (Some (Query.Str "-44,-20,-43,-19&cql_filter=1=1")) None)
  = Sisema.get_unidades_conservacao (fun _ => inr "{}")
      (Sisema.query (Some (Query.Str "-44,-20,-43,-19"))
                    (Some (Query.Str "1=1"))).
Proof.
  apply (proxy_parameters_run_together (fun _ => inr "{}")
           "-44,-20,-43,-19" "1=1"); discriminate.
Defined.

(** ** The page controller *)

Import Frontend.


Lemma find_by_key_In {Row : Type} (key : Row -> Z) (id : Z) (l : list Row) :
  (exists x, find (fun r => Z.eqb (key r) id) l = Some x)
  <-> exists x, In x l /\ key x = id.
Proof.
  split.
  - intros (x & H). apply find_some in H as [H E].
    apply Z.eqb_eq in E. now exists x.
  - intros (x & Hin & E).
    destruct (find (fun r => Z.eqb (key r) id) l) as [y|] eqn:F;
      [now exists y|].
    apply (find_none _ _ F) in Hin. apply Z.eqb_neq in Hin. contradiction.
Qed.

(** What [displayModalidades] writes, whatever the selection: the arrays are
    not touched and the button is hidden. *)
Lemma displayModalidades_frame (v : SelectValue) (p : Page) :
  tipos (page_of (displayModalidades v p)) = tipos p
  /\ modalidades (page_of (displayModalidades v p)) = modalidades p
  /\ button_revealed (page_of (displayModalidades v p)) = false.
Proof.
  unfold displayModalidades, button_revealed.
  cbn [modalidades tipos set_detalhesDiv set_modalidadesList
       set_siscalBtnContainer].
  destruct (Nat.eqb _ 0), (truthy_value v); cbn [negb];
    try destruct (find _ _); repeat split.
Qed.

(** The list after a selection: nothing, one message, or the rendered
    modalities of the selection. *)
Lemma displayModalidades_list (v : SelectValue) (p : Page) :
  let shown :=
    filter (fun m => loose_eq_text (Modalidade.tipo_id (Modalidade.columns m))
                                   v) (modalidades p) in
  modalidadesList (page_of (displayModalidades v p))
  = match shown with
    | [] => if truthy_value v
            then [plain_li "Nenhuma modalidade encontrada para este tipo."]
            else []
    | _ => map rendered shown
    end.
Proof.
  unfold displayModalidades.
  cbn [modalidades tipos set_detalhesDiv set_modalidadesList
       set_siscalBtnContainer].
  destruct (filter _ (modalidades p)) as [|m l]; cbn [List.length Nat.eqb];
    destruct (truthy_value v); cbn [negb];
    try destruct (find _ _); reflexivity.
Qed.


Lemma displayDetalhes_frame js (id : Z) (p : Page) :
  tipos (left_by (displayDetalhes js id p)) = tipos p
  /\ modalidades (left_by (displayDetalhes js id p)) = modalidades p
  /\ modalidadesList (left_by (displayDetalhes js id p)) = modalidadesList p.
Proof.
  unfold displayDetalhes.
  destruct (find _ (modalidades p)) as [m|]; [|repeat split].
  destruct (find _ (tipos p)) as [t|]; cbn [is_none orb]; [|repeat split].
  destruct (Tipo.nome t) as [tn|]; [|repeat split].
  destruct (String.eqb _ "SNUC"); [|repeat split].
  destruct (Modalidade.nome (Modalidade.columns m)) as [mn|]; [|repeat split].
  destruct (String.eqb _ "PAGAMENTO"); repeat split.
Qed.




Lemma nth_error_activate_nth (i j : nat) (l : list Li) (item : Li) :
  nth_error (activate_nth i l) j = Some item ->
  exists item', nth_error l j = Some item' /\ listener item = listener item'.
Proof.
  revert i j; induction l as [|x l IH]; intros i j H.
  - destruct i, j; discriminate.
  - destruct i as [|i]; simpl in H.
    + destruct j as [|j]; simpl in *.
      * injection H as <-. now exists x.
      * now exists item.
    + destruct j as [|j]; simpl in *.
      * injection H as <-. now exists x.
      * now apply IH in H.
Qed.

Lemma nth_error_deactivate (j : nat) (l : list Li) (item : Li) :
  nth_error (map deactivate l) j = Some item ->
  exists item', nth_error l j = Some item' /\ listener item = listener item'.
Proof.
  intros H. rewrite nth_error_map in H.
  destruct (nth_error l j) as [x|]; [|discriminate].
  injection H as <-. now exists x.
Qed.





(** ** The guard of [displayDetalhes] *)

Lemma displayModalidades_listeners (v : SelectValue) (p : Page) :
  listeners_loaded (page_of (displayModalidades v p)).
Proof.
  intros item id Hin Hl.
  destruct (displayModalidades_frame v p) as (_ & -> & _).
  rewrite displayModalidades_list in Hin. cbv zeta in Hin.
  destruct (filter _ (modalidades p)) as [|x l] eqn:E.
  - destruct (truthy_value v); [|contradiction].
    destruct Hin as [<-|[]]. discriminate.
  - rewrite <- E in Hin. apply in_map_iff in Hin as (m & <- & Hm).
    apply filter_In in Hm as [Hm _]. injection Hl as <-. now exists m.
Qed.

Lemma fetchData_listeners {A} (r : option (list A)) (p : Page) :
  listeners_loaded p -> listeners_loaded (snd (fetchData r p)).
Proof.
  intros H. destruct r; [exact H|].
  intros item id [<-|[]]. discriminate.
Qed.

Lemma resume_listeners (r : option (list Norma.t)) (p : Page) :
  listeners_loaded p -> listeners_loaded (resume r p).
Proof.
  intros H. unfold resume.
  pose proof (fetchData_listeners r p H) as H'.
  destruct (fetchData r p) as [related p']. cbn [snd] in H'.
  destruct (Nat.ltb _ _); exact H'.
Qed.

Lemma click_listeners js (i : nat) (p : Page) :
  listeners_loaded p -> listeners_loaded (left_by (click js i p)).
Proof.
  intros H. unfold click.
  destruct (nth_error (modalidadesList p) i) as [clicked|]; [|exact H].
  destruct (listener clicked) as [k|]; [|exact H].
  intros item id Hin Hl.
  destruct (displayDetalhes_frame js k
              (set_modalidadesList p
                 (activate_nth i (map deactivate (modalidadesList p)))))
    as (_ & Em & El).
  rewrite Em. rewrite El in Hin. cbn [modalidadesList modalidades
    set_modalidadesList] in *.
  apply In_nth_error in Hin as (j & Hj).
  apply nth_error_activate_nth in Hj as (x & Hj & Ex).
  apply nth_error_deactivate in Hj as (y & Hj & Ey).
  apply nth_error_In in Hj. apply (H y id Hj). congruence.
Qed.

Lemma booting_fresh (p : Page) : booting p -> fresh p.
Proof.
  induction 1 as [p H|v p _ (Et & Em & En & Hl)|p _ (Et & Em & En & Hl)];
    [exact H| |].
  - destruct (displayModalidades_frame v p) as (Et' & Em' & _).
    repeat split.
    + congruence.
    + congruence.
    + rewrite <- En. unfold displayModalidades.
      destruct (Nat.eqb _ 0), (truthy_value v); cbn [negb];
        try destruct (find _ _); reflexivity.
    + intros item Hin. rewrite displayModalidades_list, Em in Hin.
      simpl in Hin. destruct (truthy_value v); [|contradiction].
      now destruct Hin as [<-|[]].
  - repeat split; try assumption.
    intros item [<-|[]]. reflexivity.
Qed.

Lemma loadInitialData_listeners r1 r2 r3 (p : Page) :
  fresh p -> listeners_loaded (loadInitialData r1 r2 r3 p).
Proof.
  intros (_ & _ & _ & Hl) item id Hin Hid. exfalso.
  assert (H : listener item = None); [|congruence].
  unfold loadInitialData, fetchData in Hin.
  destruct r1, r2, r3; cbn [modalidadesList set_modalidadesList] in Hin;
    try (now apply Hl); now destruct Hin as [<-|[]].
Qed.

Lemma reachable_listeners js (p : Page) : reachable js p -> listeners_loaded p.
Proof.
  induction 1.
  - now apply loadInitialData_listeners, booting_fresh.
  - apply displayModalidades_listeners.
  - now apply resume_listeners.
  - now apply click_listeners.
Qed.

(** C10.  [displayDetalhes] reads [modalidade.tipo_id] before the guard:
    for an id that no loaded modality has it throws there and leaves the
    page as it was, so a call that does not throw was given the id of a
    loaded modality.  On every page that the script can reach, the ids
    captured by the items of the list are ids of loaded modalities, and
    the lookup of such an id succeeds.  When the guard returns, its first
    operand, [!modalidade], is false. *)
Theorem displayDetalhes_dereferences_before_guard js :
  (forall id p,
     find (fun m => Z.eqb (Modalidade.id m) id) (modalidades p) = None ->
     displayDetalhes js id p = Threw modalidade_tipo_id p)
  /\ (forall id p,
        completes (displayDetalhes js id p) = true ->
        exists m, In m (modalidades p) /\ Modalidade.id m = id)
  /\ (forall p, reachable js p ->
        forall item id,
          In item (modalidadesList p) -> listener item = Some id ->
          (exists m, In m (modalidades p) /\ Modalidade.id m = id)
          /\ forall p', displayDetalhes js id p <> Threw modalidade_tipo_id p')
  /\ (forall id p no_modalidade no_tipo p',
        displayDetalhes js id p = Returned no_modalidade no_tipo p' ->
        no_modalidade = false).
Proof.
  split; [|split; [|split]].
  - intros id p H. unfold displayDetalhes. now rewrite H.
  - intros id p H. apply (find_by_key_In Modalidade.id).
    unfold displayDetalhes in H.
    destruct (find _ (modalidades p)) as [m|]; [now exists m|discriminate].
  - intros p Hp item id Hin Hl.
    pose proof (reachable_listeners js p Hp item id Hin Hl) as Hm.
    split; [exact Hm|]. intros p' H.
    apply (find_by_key_In Modalidade.id) in Hm as (m & Hm).
    unfold displayDetalhes in H. rewrite Hm in H.
    destruct (find _ (tipos p)) as [t|]; cbn [is_none orb] in H;
      [|discriminate].
    destruct (Tipo.nome t); [|discriminate].
    destruct (String.eqb _ "SNUC"); [|discriminate].
    destruct (Modalidade.nome _); [|discriminate].
    destruct (String.eqb _ "PAGAMENTO"); discriminate.
  - intros id p a b p' H. unfold displayDetalhes in H.
    destruct (find _ (modalidades p)) as [m|]; [|discriminate].
    destruct (find _ (tipos p)) as [t|]; cbn [is_none orb] in H.
    + destruct (Tipo.nome t); [|discriminate].
      destruct (String.eqb _ "SNUC"); [|discriminate].
      destruct (Modalidade.nome _); [|discriminate].
      destruct (String.eqb _ "PAGAMENTO"); discriminate.
    + now injection H as <- _ _.
Qed.

(** On the loaded sample page no modality has id 99; the page after the
    selection of SNUC lists modality 1. *)
Lemma displayDetalhes_dereferences_before_guard_witness :
  displayDetalhes Js.ascii_engine 99 Sample.loaded = Threw modalidade_tipo_id Sample.loaded
  /\ (exists m, In m (modalidades Sample.loaded) /\ Modalidade.id m = 1)
  /\ exists m,
       In m (modalidades (page_of (displayModalidades (KeyText 1)
                                     Sample.loaded)))
       /\ Modalidade.id m = 1.
Proof.
  destruct (displayDetalhes_dereferences_before_guard Js.ascii_engine)
    as (H1 & H2 & H3 & _).
  split; [apply H1; reflexivity|].
  split; [apply H2; reflexivity|].
  refine (proj1 (H3 (page_of (displayModalidades (KeyText 1) Sample.loaded))
                    _ (rendered Sample.pagamento) 1 _ eq_refl)).
  - apply run_change.
    apply (run_loaded Js.ascii_engine (Some [Sample.snuc; Sample.reserva_legal])
             (Some [Sample.pagamento; Sample.reflorestamento])
             (Some [Sample.decreto]) Sample.blank).
    apply boot_start. repeat split. intros item [].
  - now left.
Defined.

(** ** The list of modalities *)

Lemma loose_eq_text_selected_key (key : option Z) (v : SelectValue) :
  loose_eq_text key v = Sql.fk_eqb key (View.selected_key v).
Proof. destruct key, v; reflexivity. Qed.

(** After a selection the list shows the loaded modalities whose type has
    the key that [==] reads in the value (0 for the empty value of the
    placeholder), in the order of the array, none of them active; when
    there is none it shows the not-found message for an option and nothing
    for the placeholder.  The detail panel and the button are hidden. *)
Theorem selection_lists_modalities_of_type (v : SelectValue) (p : Page) :
  let after := page_of (displayModalidades v p) in
  let shown := View.of_type (View.selected_key v) p in
  modalidadesList after
  = match shown with
    | [] => if truthy_value v
            then [plain_li "Nenhuma modalidade encontrada para este tipo."]
            else []
    | _ => map rendered shown
    end
  /\ display (detalhesDiv after) = none
  /\ siscalBtnContainer after = box none "".
Proof.
  cbv zeta. split.
  - rewrite displayModalidades_list. cbv zeta. unfold View.of_type.
    rewrite (filter_ext _ (fun m => Sql.fk_eqb
                             (Modalidade.tipo_id (Modalidade.columns m))
                             (View.selected_key v)));
      [reflexivity|].
    intros m. apply loose_eq_text_selected_key.
  - unfold displayModalidades.
    cbn [modalidades tipos set_detalhesDiv set_modalidadesList
         set_siscalBtnContainer].
    destruct (Nat.eqb _ 0), (truthy_value v); cbn [negb];
      try destruct (find _ _); split; reflexivity.
Qed.

(** [displayModalidades] goes on to fetch the related norms exactly when
    the value is the key of a loaded type, and it fetches them for that
    value; for the placeholder and for a key that no loaded type has it
    ends without a request. *)
Theorem norms_fetched_iff_type_loaded (v : SelectValue) (p : Page) :
  ((exists tipoId p', displayModalidades v p = Await tipoId p')
   <-> exists k t, v = KeyText k /\ In t (tipos p) /\ Tipo.id t = k)
  /\ forall tipoId p', displayModalidades v p = Await tipoId p' -> tipoId = v.
Proof.
  unfold displayModalidades.
  cbn [modalidades tipos set_detalhesDiv set_modalidadesList
       set_siscalBtnContainer].
  destruct v as [|k]; cbn [truthy_value negb].
  - split.
    + split.
      * intros (tipoId & p' & H).
        destruct (Nat.eqb _ 0); discriminate H.
      * intros (k & t & H & _). discriminate H.
    + intros tipoId p' H. destruct (Nat.eqb _ 0); discriminate H.
  - assert (Hfind :
      forall l, (exists t, find (fun t => loose_eq_text (Some (Tipo.id t))
                                           (KeyText k)) l = Some t)
                <-> exists t, In t l /\ Tipo.id t = k).
    { intros l. exact (find_by_key_In Tipo.id k l). }
    split.
    + split.
      * intros (tipoId & p' & H).
        destruct (Nat.eqb _ 0);
          cbn [tipos set_modalidadesList set_detalhesDiv
               set_siscalBtnContainer] in H;
          destruct (find _ (tipos p)) as [t|] eqn:F; try discriminate H;
          destruct (proj1 (Hfind (tipos p))) as (t' & Ht & Hk);
          try (now exists t); now exists k, t'.
      * intros (k' & t & [= <-] & Ht & Hk).
        destruct (proj2 (Hfind (tipos p))) as (t' & F); [now exists t|].
        destruct (Nat.eqb _ 0);
          cbn [tipos set_modalidadesList set_detalhesDiv
               set_siscalBtnContainer];
          rewrite F; eexists; eexists; reflexivity.
    + intros tipoId p' H.
      destruct (Nat.eqb _ 0); cbn [tipos set_modalidadesList set_detalhesDiv
               set_siscalBtnContainer] in H;
        destruct (find _ (tipos p)); try discriminate H;
        now injection H as <- _.
Qed.

(** On the loaded sample page the option of type 2 starts a fetch. *)
Lemma norms_fetched_iff_type_loaded_witness :
  exists tipoId p', displayModalidades (KeyText 2) Sample.loaded
                    = Await tipoId p'.
Proof.
  apply (proj1 (norms_fetched_iff_type_loaded (KeyText 2) Sample.loaded)).
  exists 2, Sample.reserva_legal. repeat split. right. now left.
Defined.

Lemma nth_error_marked (i j : nat) (l : list Li) :
  nth_error (activate_nth i (map deactivate l)) j
  = option_map (fun y => li (textContent y) (dataset_id y) (Nat.eqb j i)
                            (listener y))
               (nth_error l j).
Proof.
  revert i j; induction l as [|x l IH]; intros i j.
  - destruct i, j; reflexivity.
  - destruct i as [|i], j as [|j]; simpl; try reflexivity.
    + rewrite nth_error_map. now destruct (nth_error l j).
    + apply IH.
Qed.

(** A click on an item that listens leaves exactly that item active: every
    item of the list keeps its place, its text and its listener, and is
    active if and only if it is the clicked one. *)
Theorem click_marks_only_clicked_item js (i : nat) (p : Page) (item : Li)
  (id : Z) :
  nth_error (modalidadesList p) i = Some item -> listener item = Some id ->
  forall j,
    nth_error (modalidadesList (left_by (click js i p))) j
    = option_map (fun y => li (textContent y) (dataset_id y) (Nat.eqb j i)
                              (listener y))
                 (nth_error (modalidadesList p) j).
Proof.
  intros Hi Hl j. unfold click. rewrite Hi, Hl.
  destruct (displayDetalhes_frame js id
              (set_modalidadesList p
                 (activate_nth i (map deactivate (modalidadesList p)))))
    as (_ & _ & ->).
  apply nth_error_marked.
Qed.

(** On the sample page, after the selection of SNUC and a click on the
    second item, the first item is not active and the second is. *)
Lemma click_marks_only_clicked_item_witness :
  let listed := page_of (displayModalidades (KeyText 1) Sample.loaded) in
  option_map active (nth_error (modalidadesList (left_by (click Js.ascii_engine 1 listed))) 0)
  = Some false
  /\ option_map active
       (nth_error (modalidadesList (left_by (click Js.ascii_engine 1 listed))) 1)
     = Some true.
Proof.
  intros listed.
  split.
  - rewrite (click_marks_only_clicked_item Js.ascii_engine 1 listed (rendered Sample.reflorestamento) 2
               eq_refl eq_refl 0). reflexivity.
  - rewrite (click_marks_only_clicked_item Js.ascii_engine 1 listed (rendered Sample.reflorestamento) 2
               eq_refl eq_refl 1). reflexivity.
Defined.

(** ** The detail panel *)

Lemma trim_empty_of_falsy js (v : string) :
  Js.truthy (Some v) = false -> String.eqb (Js.trim js v) "" = true.
Proof.
  destruct v; [|discriminate]. intros _.
  now rewrite Js.trim_ascii.
Qed.

Lemma campo_html_section js (detalhesHtml : string) (campo : string * text) :
  campo_html js detalhesHtml campo
  = if View.shown_field js campo
    then detalhesHtml ++ View.section_html campo
    else detalhesHtml.
Proof.
  destruct campo as [chave [v|]]; [|reflexivity].
  unfold campo_html, View.shown_field, View.section_html.
  cbn [fst snd as_textContent].
  destruct (Js.truthy (Some v)) eqn:T; [reflexivity|].
  now rewrite (trim_empty_of_falsy js v T).
Qed.

Lemma fold_campo_html js (l : list (string * text)) (detalhesHtml : string) :
  fold_left (campo_html js) l detalhesHtml
  = detalhesHtml
    ++ fold_right append "" (map View.section_html
                                 (filter (View.shown_field js) l)).
Proof.
  revert detalhesHtml; induction l as [|campo l IH]; intros detalhesHtml.
  - simpl. now rewrite append_nil_r.
  - simpl fold_left. rewrite IH, campo_html_section. simpl filter.
    destruct (View.shown_field js campo); [|reflexivity].
    simpl. now rewrite append_assoc.
Qed.

(** When the modality and its type are found, the detail panel is shown
    with the name of the modality as heading, followed by one labelled
    section for each of the seven fields that is not null and not blank, in
    the fixed order of the fields; a null or blank field leaves no trace. *)
Theorem detail_panel_shows_filled_fields js (id : Z) (p : Page)
  (m : Modalidade.t) (t : Tipo.t) :
  find (fun x => Z.eqb (Modalidade.id x) id) (modalidades p) = Some m ->
  find (fun x => loose_eq_key (Tipo.id x)
                   (Modalidade.tipo_id (Modalidade.columns m))) (tipos p)
  = Some t ->
  detalhesDiv (left_by (displayDetalhes js id p))
  = box block
      ("<h3>" ++ Js.interpolate (Modalidade.nome (Modalidade.columns m))
       ++ "</h3>"
       ++ fold_right append ""
            (map View.section_html
                 (filter (View.shown_field js) (campos (Modalidade.columns m))))).
Proof.
  intros Hm Ht. unfold displayDetalhes. rewrite Hm, Ht. cbn [is_none orb].
  rewrite fold_campo_html, !append_assoc.
  destruct (Tipo.nome t) as [tn|]; [|reflexivity].
  destruct (String.eqb _ "SNUC"); [|reflexivity].
  destruct (Modalidade.nome (Modalidade.columns m)) as [mn|]; [|reflexivity].
  destruct (String.eqb _ "PAGAMENTO"); reflexivity.
Qed.

(** The modality Pagamento has a proportion and nothing else. *)
Lemma detail_panel_shows_filled_fields_witness :
  innerHTML (detalhesDiv (left_by (displayDetalhes Js.ascii_engine 1 Sample.loaded)))
  = "<h3>Pagamento</h3><strong>Proporção:</strong><p>0,5%</p>".
Proof.
  rewrite (detail_panel_shows_filled_fields Js.ascii_engine 1 Sample.loaded Sample.pagamento
             Sample.snuc eq_refl eq_refl).
  reflexivity.
Defined.

(** A type or a modality without a name.  With a type whose name is null
    the click throws at [tipo.nome.trim()]; with a modality whose name is
    null it throws at [modalidade.nome.trim()] when the type is SNUC, and
    ends normally when it is not.  In all three cases the panel has been
    written and the button is hidden. *)
Theorem nameless_rows_and_the_click js (id : Z) (p : Page) (m : Modalidade.t)
  (t : Tipo.t) :
  find (fun x => Z.eqb (Modalidade.id x) id) (modalidades p) = Some m ->
  find (fun x => loose_eq_key (Tipo.id x)
                   (Modalidade.tipo_id (Modalidade.columns m))) (tipos p)
  = Some t ->
  let after := left_by (displayDetalhes js id p) in
  (Tipo.nome t = None -> displayDetalhes js id p = Threw tipo_nome_trim after)
  /\ (Modalidade.nome (Modalidade.columns m) = None ->
      forall tn, Tipo.nome t = Some tn ->
        displayDetalhes js id p
        = if String.eqb (Js.toUpperCase js (Js.trim js tn)) "SNUC"
          then Threw modalidade_nome_trim after
          else Rendered after)
  /\ (Tipo.nome t = None \/ Modalidade.nome (Modalidade.columns m) = None ->
      display (detalhesDiv after) = block
      /\ siscalBtnContainer after = box none "").
Proof.
  intros Hm Ht. cbv zeta. unfold displayDetalhes. rewrite Hm, Ht.
  cbn [is_none orb]. split; [|split].
  - intros ->. reflexivity.
  - intros -> tn ->. now destruct (String.eqb _ "SNUC").
  - intros [->| ->].
    + split; reflexivity.
    + destruct (Tipo.nome t) as [tn|]; [|split; reflexivity].
      destruct (String.eqb _ "SNUC"); split; reflexivity.
Qed.

(** ** Fetches *)

(** When the fetch of the related norms fails, the list of modalities is
    replaced by the error item and the box of norms is hidden and emptied;
    the arrays stay loaded, and a click on the list has no effect any
    more. *)
Theorem failed_norms_fetch_disables_list js (p : Page) :
  let after := resume None p in
  modalidadesList after
  = [plain_li "Erro ao carregar dados. Verifique o console."]
  /\ normasDiv after = normas_div none []
  /\ View.arrays after = View.arrays p
  /\ forall i, click js i after = Rendered after.
Proof.
  cbv zeta. repeat split.
  intros [|[|i]]; reflexivity.
Qed.

Lemma norms_fetched_await (v : SelectValue) (p : Page) :
  (exists t, In t (tipos p) /\ loose_eq_text (Some (Tipo.id t)) v = true
             /\ truthy_value v = true)
  <-> exists p', displayModalidades v p = Await v p'.
Proof.
  unfold displayModalidades. split.
  - intros (t & Ht & Hk & Hv). rewrite Hv. cbn [negb].
    destruct (find (fun t => loose_eq_text (Some (Tipo.id t)) v) (tipos p))
      as [t'|] eqn:F.
    + destruct (Nat.eqb _ 0);
        cbn [tipos set_modalidadesList set_detalhesDiv
             set_siscalBtnContainer];
        rewrite F; eexists; reflexivity.
    + apply (find_none _ _ F) in Ht. congruence.
  - intros (p' & H). destruct (truthy_value v) eqn:Hv; cbn [negb] in H;
      [|discriminate H].
    destruct (find (fun t => loose_eq_text (Some (Tipo.id t)) v) (tipos p))
      as [t'|] eqn:F.
    + apply find_some in F as [Ht Hk]. now exists t'.
    + destruct (Nat.eqb _ 0);
        cbn [tipos set_modalidadesList set_detalhesDiv
             set_siscalBtnContainer] in H;
        rewrite F in H; discriminate H.
Qed.

(** [loadInitialData] keeps what each fetch brought and an empty array for
    each fetch that failed, independently of the other two; the selector
    offers the placeholder and then one option per loaded type, in order;
    and choosing any of these options starts the fetch of its norms. *)
Theorem loaded_options_are_loaded_types
  (r1 : option (list Tipo.t)) (r2 : option (list Modalidade.t))
  (r3 : option (list Norma.t)) (p : Page) :
  let loaded := loadInitialData r1 r2 r3 p in
  tipos loaded = match r1 with Some data => data | None => [] end
  /\ modalidades loaded = match r2 with Some data => data | None => [] end
  /\ normas loaded = match r3 with Some data => data | None => [] end
  /\ tipoSelect loaded
     = (Placeholder, "-- Selecione um Tipo --")
       :: map (fun tipo => (KeyText (Tipo.id tipo),
                            as_textContent (Tipo.nome tipo)))
              (tipos loaded)
  /\ forall k label,
       In (KeyText k, label) (tipoSelect loaded) ->
       exists p', displayModalidades (KeyText k) loaded
                  = Await (KeyText k) p'.
Proof.
  cbv zeta.
  assert (H : tipos (loadInitialData r1 r2 r3 p)
              = match r1 with Some data => data | None => [] end
              /\ modalidades (loadInitialData r1 r2 r3 p)
                 = match r2 with Some data => data | None => [] end
              /\ normas (loadInitialData r1 r2 r3 p)
                 = match r3 with Some data => data | None => [] end
              /\ tipoSelect (loadInitialData r1 r2 r3 p)
                 = (Placeholder, "-- Selecione um Tipo --")
                   :: map (fun tipo => (KeyText (Tipo.id tipo),
                                        as_textContent (Tipo.nome tipo)))
                          (tipos (loadInitialData r1 r2 r3 p))).
  { unfold loadInitialData, fetchData. destruct r1, r2, r3; repeat split. }
  destruct H as (H1 & H2 & H3 & H4).
  repeat (split; [assumption|]).
  intros k label Hin. rewrite H4 in Hin.
  destruct Hin as [Hin|Hin]; [discriminate|].
  apply in_map_iff in Hin as (t & [= <- _] & Ht).
  destruct (proj1 (norms_fetched_await (KeyText (Tipo.id t))
                     (loadInitialData r1 r2 r3 p))) as (p' & Hp').
  { exists t. repeat split; [assumption|apply Z.eqb_refl]. }
  now exists p'.
Qed.

(** The type of the modality Plantio has no name: the click throws after
    the panel was written. *)
Lemma nameless_rows_and_the_click_witness :
  displayDetalhes Js.ascii_engine 3 Edge.loaded
  = Threw tipo_nome_trim (left_by (displayDetalhes Js.ascii_engine 3 Edge.loaded))
  /\ display (detalhesDiv (left_by (displayDetalhes Js.ascii_engine 3 Edge.loaded))) = block.
Proof.
  destruct (nameless_rows_and_the_click Js.ascii_engine 3 Edge.loaded Edge.plantio
              Edge.sem_nome eq_refl eq_refl) as (H1 & _ & H3).
  split; [apply H1; reflexivity|].
  apply H3. now left.
Defined.

(** The fetch of the normas failed; the types are loaded all the same, and
    the option of the nameless type starts a fetch. *)
Lemma loaded_options_are_loaded_types_witness :
  tipos Edge.loaded = [Sample.snuc; Edge.sem_nome]
  /\ exists p', displayModalidades (KeyText 3) Edge.loaded
                = Await (KeyText 3) p'.
Proof.
  destruct (loaded_options_are_loaded_types
              (Some [Sample.snuc; Edge.sem_nome])
              (Some [Sample.pagamento; Edge.plantio]) None Sample.blank)
    as (H1 & _ & _ & _ & H5).
  split; [exact H1|].
  apply (H5 3 ""). right. right. now left.
Defined.

(** After [loadInitialData] nothing writes to the three arrays or to the
    options of the selector: a selection, the arrival of the related norms
    (or the failure of their fetch), a click and [displayDetalhes] leave
    them as they are. *)
Theorem events_keep_arrays js (p : Page) :
  (forall v, View.arrays (page_of (displayModalidades v p)) = View.arrays p)
  /\ (forall r, View.arrays (resume r p) = View.arrays p)
  /\ (forall id, View.arrays (left_by (displayDetalhes js id p)) = View.arrays p)
  /\ (forall i, View.arrays (left_by (click js i p)) = View.arrays p).
Proof.
  assert (Hd : forall id q,
             View.arrays (left_by (displayDetalhes js id q)) = View.arrays q).
  { intros id q. unfold displayDetalhes.
    destruct (find _ (modalidades q)) as [m|]; [|reflexivity].
    destruct (find _ (tipos q)) as [t|]; cbn [is_none orb]; [|reflexivity].
    destruct (Tipo.nome t) as [tn|]; [|reflexivity].
    destruct (String.eqb _ "SNUC"); [|reflexivity].
    destruct (Modalidade.nome (Modalidade.columns m)) as [mn|];
      [|reflexivity].
    destruct (String.eqb _ "PAGAMENTO"); reflexivity. }
  split; [|split; [|split]].
  - intros v. unfold displayModalidades.
    cbn [modalidades tipos set_detalhesDiv set_modalidadesList
         set_siscalBtnContainer].
    destruct (Nat.eqb _ 0), (truthy_value v); cbn [negb];
      try destruct (find _ _); reflexivity.
  - intros r. unfold resume, fetchData.
    destruct r as [related|]; destruct (Nat.ltb _ _); reflexivity.
  - intros id. apply Hd.
  - intros i. unfold click.
    destruct (nth_error (modalidadesList p) i) as [item|]; [|reflexivity].
    destruct (listener item) as [id|]; [|reflexivity].
    now rewrite Hd.
Qed.
